(** * AI Global Networks: chat relay and stream reader

    A shallow embedding of the request validator, the upstream client and the
    [POST /api/chat] / [GET /api/health] handlers of [server.js], and of the
    stream reader [ChatApp.streamResponse] of [public/chatbot.js], together
    with the buffered reader [streamMessage] that the API reference prints
    ([Documentation/chatbot_grammar_fix.md] describes the same buffer).
    Further on come the other routes of [server.js] ([GET /api/models], the
    404 and the error handler) and, of [public/chatbot.js], the API client
    with the error shown in the chat, the conversation history ([saveChat],
    [newChat], [loadChat], [deleteChat], [clearAll]), [Utils.getTimeAgo] and
    [Storage].

    JavaScript values are an inductive type, exceptions are an explicit
    completion monad, and the built-ins whose full semantics is not needed
    ([JSON.parse], the coercions of strings and objects to numbers and of
    values to strings) are the fields of a [Runtime] class. *)

From Stdlib Require Import String Ascii List ZArith QArith Bool Lia DecimalString.
Import ListNotations.

Local Open Scope string_scope.
Local Open Scope list_scope.
Local Set Warnings "-register-all".

(* ================================================================== *)
(** * JavaScript values *)
(* ================================================================== *)

Module JS.

(** A JavaScript number by its value: a finite double is the rational it
    denotes ([-0] and [0] are not told apart: they compare equal and are both
    falsy), plus the two infinities and [NaN]. *)
Inductive Number : Type :=
| Finite (q : Q)
| PosInfinity
| NegInfinity
| NaN.

Inductive JSValue : Type :=
| JUndefined
| JNull
| JBool (b : bool)
| JNum (n : Number)
| JStr (s : string)
| JArr (items : list JSValue)
| JObj (props : list (string * JSValue)).

Definition num (z : Z) : Number := Finite (inject_Z z).

(** The [<] of two numbers; any comparison with [NaN] is [false]. *)
Definition num_lt (a b : Number) : bool :=
  match a, b with
  | Finite p, Finite q => negb (Qle_bool q p)
  | NegInfinity, Finite _ | NegInfinity, PosInfinity => true
  | Finite _, PosInfinity => true
  | _, _ => false
  end.

Definition num_gt (a b : Number) : bool := num_lt b a.

(** [<=] on numbers, used only to state ranges. *)
Definition num_le (a b : Number) : bool :=
  match a, b with
  | Finite p, Finite q => Qle_bool p q
  | NegInfinity, Finite _ | NegInfinity, PosInfinity | NegInfinity, NegInfinity => true
  | Finite _, PosInfinity | PosInfinity, PosInfinity => true
  | _, _ => false
  end.

Definition num_is_zero (a : Number) : bool :=
  match a with
  | Finite q => Qeq_bool q 0
  | _ => false
  end.

(** ToBoolean: the falsy values are [undefined], [null], [false], [0], [NaN]
    and the empty string. *)
Definition ToBoolean (v : JSValue) : bool :=
  match v with
  | JUndefined | JNull => false
  | JBool b => b
  | JNum NaN => false
  | JNum n => negb (num_is_zero n)
  | JStr s => negb (s =? "")
  | JArr _ | JObj _ => true
  end.

Definition isArray (v : JSValue) : bool :=
  match v with JArr _ => true | _ => false end.

(** ** Exceptions *)

Inductive JSError : Type := TypeError | SyntaxError | NetworkError.

Inductive Completion (A : Type) : Type :=
| Normal (a : A)
| Throw (e : JSError).
Arguments Normal {A} a.
Arguments Throw {A} e.

Definition bind {A B} (c : Completion A) (k : A -> Completion B) : Completion B :=
  match c with
  | Normal a => k a
  | Throw e => Throw e
  end.

(** [try { c } catch (e) { h }] *)
Definition try_catch {A} (c : Completion A) (h : JSError -> A) : A :=
  match c with
  | Normal a => a
  | Throw e => h e
  end.

(** ** Property access *)

Fixpoint lookup (key : string) (props : list (string * JSValue)) : JSValue :=
  match props with
  | [] => JUndefined
  | (k, v) :: rest => if k =? key then v else lookup key rest
  end.

Definition str_of_char (c : ascii) : string := String c EmptyString.

(** [v.key] for the property names this program reads ([messages], [role],
    [content], [choices], [delta], [error], [message], [model], [usage],
    [temperature], [max_tokens], [stream]): none of them is defined on
    [Object.prototype], [Array.prototype] or [String.prototype], so on an
    array, a string, a number or a boolean the access gives [undefined]
    (apart from [length]); on [undefined] and [null] it throws. *)
Definition Get (v : JSValue) (key : string) : Completion JSValue :=
  match v with
  | JUndefined | JNull => Throw TypeError
  | JObj props => Normal (lookup key props)
  | JArr items =>
      Normal (if key =? "length" then JNum (num (Z.of_nat (List.length items)))
              else JUndefined)
  | JStr s =>
      Normal (if key =? "length" then JNum (num (Z.of_nat (String.length s)))
              else JUndefined)
  | JBool _ | JNum _ => Normal JUndefined
  end.

(** [v[0]] *)
Definition GetIndex0 (v : JSValue) : Completion JSValue :=
  match v with
  | JUndefined | JNull => Throw TypeError
  | JObj props => Normal (lookup "0" props)
  | JArr items => Normal (match items with x :: _ => x | [] => JUndefined end)
  | JStr s =>
      Normal (match s with String c _ => JStr (str_of_char c) | EmptyString => JUndefined end)
  | JBool _ | JNum _ => Normal JUndefined
  end.

(** [v?.key] *)
Definition OptGet (v : JSValue) (key : string) : Completion JSValue :=
  match v with
  | JUndefined | JNull => Normal JUndefined
  | _ => Get v key
  end.

(** [a || b] on values *)
Definition js_or (a b : JSValue) : JSValue := if ToBoolean a then a else b.

(** ** Strings *)

Definition LF : ascii := "010"%char.
Definition nl : string := str_of_char LF.

Fixpoint startsWith (s prefix : string) : bool :=
  match prefix, s with
  | EmptyString, _ => true
  | String p prefix', String c s' => (Ascii.eqb c p) && startsWith s' prefix'
  | String _ _, EmptyString => false
  end.

(** [s.slice(n)] for [n >= 0] *)
Fixpoint slice (s : string) (n : nat) : string :=
  match n, s with
  | O, _ => s
  | S n', String _ s' => slice s' n'
  | S _, EmptyString => EmptyString
  end.

(** [s.split('\n')]: never empty; a text without line break is its only part,
    and a trailing line break leaves an empty last part. *)
Fixpoint split_lines (s : string) : list string :=
  match s with
  | EmptyString => [EmptyString]
  | String c s' =>
      if Ascii.eqb c LF then EmptyString :: split_lines s'
      else match split_lines s' with
           | part :: parts => String c part :: parts
           | [] => [str_of_char c]
           end
  end.

(** [parts.join('\n')] *)
Fixpoint join_lines (parts : list string) : string :=
  match parts with
  | [] => EmptyString
  | [p] => p
  | p :: rest => p ++ nl ++ join_lines rest
  end.

(** ** Built-ins taken as given *)

(** [JSON_parse] is [JSON.parse] ([None]: it throws a [SyntaxError]);
    [ToNumber_other] is the numeric coercion of a string, an array or an
    object, as the relational operators apply it; [ToString_other] is the
    string coercion of a value that is not a string, as [+=] applies it. *)
Class Runtime : Type := {
  JSON_parse : string -> option JSValue;
  ToNumber_other : JSValue -> Number;
  ToString_other : JSValue -> string
}.

Section Coercions.
Context {rt : Runtime}.

Definition ToNumber (v : JSValue) : Number :=
  match v with
  | JUndefined => NaN
  | JNull => num 0
  | JBool b => if b then num 1 else num 0
  | JNum n => n
  | JStr _ | JArr _ | JObj _ => ToNumber_other v
  end.

Definition ToString (v : JSValue) : string :=
  match v with
  | JStr s => s
  | _ => ToString_other v
  end.

(** [v < n] and [v > n] against a numeric literal *)
Definition js_lt (v : JSValue) (n : Number) : bool := num_lt (ToNumber v) n.
Definition js_gt (v : JSValue) (n : Number) : bool := num_gt (ToNumber v) n.

Definition parse (s : string) : Completion JSValue :=
  match JSON_parse s with
  | Some v => Normal v
  | None => Throw SyntaxError
  end.
End Coercions.

End JS.

(* ================================================================== *)
(** * server.js *)
(* ================================================================== *)

Module Server.
Import JS.

(** [Logger] only writes to the console and is left out; so is [PORT], which
    no handler reads. *)

(** ** Configuration *)

(** The environment variables the handlers depend on. *)
Record Env : Type := {
  env_NODE_ENV : option string;
  env_GROQ_API_KEY : option string
}.

Record Config : Type := {
  NODE_ENV : string;
  GROQ_API_KEY : option string;
  GROQ_API_URL : string;
  MAX_TOKENS : Number;
  RATE_LIMIT_WINDOW : Z;
  RATE_LIMIT_MAX : Z
}.

(** [process.env.X || d]: an unset and an empty variable both give [d]. *)
Definition env_or (v : option string) (d : string) : string :=
  match v with
  | Some s => if s =? "" then d else s
  | None => d
  end.

Definition CONFIG (env : Env) : Config := {|
  NODE_ENV := env_or (env_NODE_ENV env) "development";
  GROQ_API_KEY := env_GROQ_API_KEY env;
  GROQ_API_URL := "https://api.groq.com/openai/v1/chat/completions";
  MAX_TOKENS := num 2048;
  RATE_LIMIT_WINDOW := 60000;
  RATE_LIMIT_MAX := 30
|}.

Definition COMPANY_CONTEXT : string :=
"You are an AI assistant for AI Global Networks, a leading company specializing in AI automation and integration solutions.

ABOUT AI GLOBAL NETWORKS:
- We help businesses automate workflows and integrate AI into their operations
- Founded with a mission to make AI accessible and practical for all industries
- Expert team with years of experience in AI, machine learning, and automation

OUR SERVICES:
1. Smart Automation - Automate repetitive tasks with AI
2. AI Integrations - Connect AI with your existing tools and apps
3. Custom AI Solutions - Personalized AI tools for your business needs
4. 24/7 Support - Round-the-clock assistance from our expert team

INDUSTRIES WE SERVE:
- Customer Support (AI chatbots, ticket automation)
- Healthcare (patient management, diagnosis assistance)
- Marketing (content generation, campaign optimization)
- Education (personalized learning, grading automation)
- Finance (fraud detection, automated reporting)

OUR APPLICATIONS:
- Sensi Sezuire - AI-powered security monitoring
- Block Spy - Blockchain intelligence and analytics
- Ubizo iMarket - Smart marketplace automation
- Woman in AI - Empowering women in technology
- Ethical AI - Responsible AI development tools
- 24/7 Property Hunter - Automated real estate finder

SKILLS DEVELOPMENT PROGRAMS:
- Cybersecurity training
- Data Science bootcamps
- Software Development courses
- Design Thinking workshops

PRICING:
- Free tier available for small businesses
- Professional plans starting at competitive rates
- Enterprise solutions with custom pricing
- No credit card required to get started

When answering questions:
- Be professional, friendly, and helpful
- Reference our specific services when relevant
- Encourage users to explore our solutions
- Provide accurate information about AI automation
- If unsure about specific pricing or technical details, suggest contacting our team
- Always maintain a positive, solution-oriented tone".

(** ** Validators *)

Record Validation : Type := {
  valid : bool;
  error : option string
}.

Definition invalid (msg : string) : Validation := {| valid := false; error := Some msg |}.
Definition ok : Validation := {| valid := true; error := None |}.

(** Truthiness of [CONFIG.GROQ_API_KEY]: unset and empty are falsy. *)
Definition key_truthy (key : option string) : bool :=
  match key with
  | Some k => negb (k =? "")
  | None => false
  end.

Definition validateApiKey (cfg : Config) : bool :=
  if negb (key_truthy (GROQ_API_KEY cfg)) then false else true.

(** [messages.some(pred)]: stops at the first element that satisfies [pred];
    an exception of [pred] ends the scan. *)
Fixpoint some (pred : JSValue -> Completion bool) (items : list JSValue) : Completion bool :=
  match items with
  | [] => Normal false
  | x :: rest => bind (pred x) (fun b => if b then Normal true else some pred rest)
  end.

(** [msg => !msg.role || !msg.content] *)
Definition lacks_role_or_content (msg : JSValue) : Completion bool :=
  bind (Get msg "role") (fun role =>
  if negb (ToBoolean role) then Normal true
  else bind (Get msg "content") (fun content => Normal (negb (ToBoolean content)))).

Definition MSG_MESSAGES : string := "Messages array is required and cannot be empty".
Definition MSG_MESSAGE : string := "Each message must have role and content".
Definition MSG_TEMPERATURE : string := "Temperature must be between 0 and 2".
Definition MSG_MAX_TOKENS : string := "Max tokens must be between 1 and 4096".

(** The elements of an array; applied only under [Array.isArray]. *)
Definition array_items (v : JSValue) : list JSValue :=
  match v with
  | JArr items => items
  | _ => []
  end.

Section WithRuntime.
Context {rt : Runtime}.

Definition validateChatRequest (body : JSValue) : Completion Validation :=
  bind (Get body "messages") (fun messages =>
  bind (Get body "model") (fun model =>
  bind (Get body "temperature") (fun temperature =>
  bind (Get body "max_tokens") (fun max_tokens =>
  if negb (ToBoolean messages) || negb (isArray messages)
     || (List.length (array_items messages) =? 0)%nat
  then Normal (invalid MSG_MESSAGES)
  else
    bind (some lacks_role_or_content (array_items messages)) (fun bad =>
    if bad then Normal (invalid MSG_MESSAGE)
    else if ToBoolean temperature
            && (js_lt temperature (num 0) || js_gt temperature (num 2))
    then Normal (invalid MSG_TEMPERATURE)
    else if ToBoolean max_tokens
            && (js_lt max_tokens (num 1) || js_gt max_tokens (num 4096))
    then Normal (invalid MSG_MAX_TOKENS)
    else Normal ok))))).

(** ** The upstream client *)

Record FetchRequest : Type := {
  url : string;
  method : string;
  headers : list (string * string);
  body : JSValue          (* the value handed to [JSON.stringify] *)
}.

(** What the handler can observe of the upstream response: its status, what
    [response.json()] gives, and, read through [response.body.getReader()],
    the decoded chunks followed by either end of stream or a failed read. *)
Record UpstreamResponse : Type := {
  status : Z;
  json : Completion JSValue;
  chunks : list string;
  read_fails : bool
}.

Inductive FetchOutcome : Type :=
| Rejected
| Resolved (r : UpstreamResponse).

Definition response_ok (r : UpstreamResponse) : bool :=
  (200 <=? status r)%Z && (status r <=? 299)%Z.

(** A destructuring default: it applies to [undefined] only. *)
Definition default_to (d v : JSValue) : JSValue :=
  match v with
  | JUndefined => d
  | _ => v
  end.

(** [...v] inside an array literal *)
Definition spread (v : JSValue) : Completion (list JSValue) :=
  match v with
  | JArr items => Normal items
  | JStr s => Normal (List.map (fun c => JStr (str_of_char c)) (list_ascii_of_string s))
  | _ => Throw TypeError
  end.

Definition systemMessage : JSValue :=
  JObj [("role", JStr "system"); ("content", JStr COMPANY_CONTEXT)].

Definition bearer (key : option string) : string :=
  "Bearer " ++ match key with Some k => k | None => "undefined" end.

(** [GroqClient.sendRequest]: the response (or the rethrown failure) and the
    requests handed to [fetch]. *)
Definition sendRequest (cfg : Config) (fetch : FetchRequest -> FetchOutcome)
    (messages : JSValue) (options : list (string * JSValue))
  : Completion UpstreamResponse * list FetchRequest :=
  let model := default_to (JStr "llama-3.3-70b-versatile") (lookup "model" options) in
  let temperature := default_to (JNum (Finite (7 # 10))) (lookup "temperature" options) in
  let max_tokens := default_to (JNum (MAX_TOKENS cfg)) (lookup "max_tokens" options) in
  let stream := default_to (JBool false) (lookup "stream" options) in
  match spread messages with
  | Throw e => (Throw e, [])
  | Normal items =>
      let requestBody := JObj [
        ("model", model);
        ("messages", JArr (systemMessage :: items));
        ("temperature", temperature);
        ("max_tokens", max_tokens);
        ("top_p", JNum (num 1));
        ("stream", stream) ] in
      let request := {|
        url := GROQ_API_URL cfg;
        method := "POST";
        headers := [("Authorization", bearer (GROQ_API_KEY cfg));
                    ("Content-Type", "application/json")];
        body := requestBody |} in
      match fetch request with
      | Rejected => (Throw NetworkError, [request])
      | Resolved response => (Normal response, [request])
      end
  end.

(** ** Responses *)

Inductive HttpResponse : Type :=
| Json (code : Z) (payload : JSValue)
    (* [res.status(code).json(payload)] *)
| EventStream (hdrs : list (string * string)) (writes : list string) (ended : bool)
    (* status 200, the [res.write]s so far, and whether [res.end()] ran *)
| Unanswered.
    (* the handler's promise rejected before the handler sent anything *)

Definition error_body (msg : JSValue) : JSValue := JObj [("error", msg)].

Definition SSE_HEADERS : list (string * string) :=
  [("Content-Type", "text/event-stream");
   ("Cache-Control", "no-cache");
   ("Connection", "keep-alive");
   ("X-Accel-Buffering", "no")].

Definition frame (line : string) : string := line ++ nl ++ nl.
Definition DONE_FRAME : string := frame "data: [DONE]".

(** [for (const line of lines) if (line.startsWith('data: ')) res.write(...)] *)
Fixpoint forward_lines (lines : list string) : list string :=
  match lines with
  | [] => []
  | line :: rest =>
      if startsWith line "data: " then frame line :: forward_lines rest
      else forward_lines rest
  end.

(** [res.headersSent]: true from the first [res.write] on. *)
Definition headersSent (written : list string) : bool :=
  match written with
  | [] => false
  | _ :: _ => true
  end.

(** The streaming branch: the [while (true)] loop over [reader.read()], its
    [done] exit and its [catch (streamError)]. *)
Fixpoint stream_loop (pending : list string) (fails : bool) (written : list string)
  : HttpResponse :=
  match pending with
  | chunk :: rest =>
      stream_loop rest fails (written ++ forward_lines (split_lines chunk))
  | [] =>
      if fails then
        if negb (headersSent written)
        then Json 500 (error_body (JStr "Streaming failed"))
        else EventStream SSE_HEADERS written false
      else EventStream SSE_HEADERS (written ++ [DONE_FRAME]) true
  end.

(** The non-streaming branch. *)
Definition aggregate (response : UpstreamResponse) : Completion HttpResponse :=
  bind (json response) (fun data =>
  bind (Get data "choices") (fun choices =>
  bind (GetIndex0 choices) (fun first =>
  bind (OptGet first "message") (fun message =>
  bind (OptGet message "content") (fun content =>
  bind (Get data "model") (fun model =>
  bind (Get data "usage") (fun usage =>
  Normal (Json 200 (JObj [("message", js_or content (JStr ""));
                          ("model", model);
                          ("usage", usage)]))))))))).

(** [if (!response.ok) { ... }] *)
Definition upstream_error (response : UpstreamResponse) : Completion HttpResponse :=
  bind (json response) (fun errorData =>
  bind (Get errorData "error") (fun err =>
  bind (OptGet err "message") (fun message =>
  Normal (Json (status response)
               (error_body (js_or message (JStr "AI service error"))))))).

Definition UNEXPECTED : JSValue :=
  error_body (JStr "An unexpected error occurred. Please try again.").

(** ** POST /api/chat *)

Definition chat (env : Env) (fetch : FetchRequest -> FetchOutcome) (req_body : JSValue)
  : HttpResponse * list FetchRequest :=
  let cfg := CONFIG env in
  if negb (validateApiKey cfg)
  then (Json 500 (error_body (JStr "Server configuration error.")), [])
  else
    match validateChatRequest req_body with
    | Throw _ => (Unanswered, [])
    | Normal validation =>
        if negb (valid validation)
        then (Json 400 (error_body (match error validation with
                                    | Some msg => JStr msg
                                    | None => JUndefined
                                    end)), [])
        else
          match bind (Get req_body "messages") (fun messages =>
                bind (Get req_body "model") (fun model =>
                bind (Get req_body "temperature") (fun temperature =>
                bind (Get req_body "max_tokens") (fun max_tokens =>
                bind (Get req_body "stream") (fun stream =>
                Normal (messages, model, temperature, max_tokens,
                        default_to (JBool false) stream)))))) with
          | Throw _ => (Unanswered, [])
          | Normal (messages, model, temperature, max_tokens, stream) =>
              let (sent, calls) :=
                sendRequest cfg fetch messages
                  [("model", model); ("temperature", temperature);
                   ("max_tokens", max_tokens); ("stream", stream)] in
              (try_catch
                 (bind sent (fun response =>
                  if negb (response_ok response) then upstream_error response
                  else if ToBoolean stream
                  then Normal (stream_loop (chunks response) (read_fails response) [])
                  else aggregate response))
                 (fun _ => Json 500 UNEXPECTED),
               calls)
          end
    end.

(** ** GET /api/health *)

Definition health (env : Env) (now : string) : HttpResponse :=
  let cfg := CONFIG env in
  let isHealthy := validateApiKey cfg in
  Json (if isHealthy then 200 else 503)
       (JObj [("status", JStr (if isHealthy then "ok" else "degraded"));
              ("timestamp", JStr now);
              ("environment", JStr (NODE_ENV cfg));
              ("apiConfigured", JBool (negb (negb (key_truthy (GROQ_API_KEY cfg)))))]).

End WithRuntime.

End Server.

(* ================================================================== *)
(** * public/chatbot.js *)
(* ================================================================== *)

Module Client.
Import JS.

Section WithRuntime.
Context {rt : Runtime}.

(** The body of the [try] of [streamResponse] up to [const content = ...]. *)
Definition delta_content (data : string) : Completion JSValue :=
  bind (parse data) (fun parsed =>
  bind (Get parsed "choices") (fun choices =>
  bind (GetIndex0 choices) (fun first =>
  bind (OptGet first "delta") (fun delta =>
  bind (OptGet delta "content") (fun content =>
  Normal (js_or content (JStr ""))))))).

(** The decode step on one line: [Some content] when the line reaches
    [fullResponse += content], [None] when it is skipped. *)
Definition decode_line (line : string) : option JSValue :=
  if startsWith line "data: " then
    let data := slice line 6 in
    if data =? "[DONE]" then None
    else
      try_catch
        (bind (delta_content data) (fun content =>
         Normal (if ToBoolean content then Some content else None)))
        (fun _ => None)
  else None.

(** [for (const line of lines) { ... }]: the contents appended, in order. *)
Fixpoint decode_lines (lines : list string) : list JSValue :=
  match lines with
  | [] => []
  | line :: rest =>
      match decode_line line with
      | Some content => content :: decode_lines rest
      | None => decode_lines rest
      end
  end.

(** The lines one pass of the [while] loop hands to the decode step. *)
Definition chunk_lines (chunk : string) : list string := split_lines chunk.

(** [streamResponse]: every line handed to the decode step, over all reads. *)
Fixpoint streamResponse_lines (chunks : list string) : list string :=
  match chunks with
  | [] => []
  | chunk :: rest => chunk_lines chunk ++ streamResponse_lines rest
  end.

(** [streamResponse]: the deltas appended to [fullResponse], over all reads. *)
Fixpoint streamResponse_deltas (chunks : list string) : list JSValue :=
  match chunks with
  | [] => []
  | chunk :: rest => decode_lines (chunk_lines chunk) ++ streamResponse_deltas rest
  end.

(** [fullResponse] when the reader reports [done]. *)
Fixpoint streamResponse (chunks : list string) (fullResponse : string) : string :=
  match chunks with
  | [] => fullResponse
  | chunk :: rest =>
      streamResponse rest
        (fold_left (fun acc content => (acc ++ ToString content)%string)
                   (decode_lines (chunk_lines chunk)) fullResponse)
  end.

End WithRuntime.

End Client.

(* ================================================================== *)
(** * The reader of the API reference *)
(* ================================================================== *)

(** [streamMessage] as the API reference prints it: the decode step of
    chatbot.js behind a buffer that keeps the last, possibly unfinished,
    part.  [Documentation/chatbot_grammar_fix.md] prints the same buffer in
    front of a decode step that also trims each line. *)
Module DocumentedReader.
Import JS.

(** [lines.pop() || ''] and what is left in [lines] *)
Definition pop (parts : list string) : list string * string :=
  (removelast parts, last parts "").

(** One pass of the loop: [buffer += chunk], split, keep the last part. *)
Definition feed (buffer chunk : string) : list string * string :=
  pop (split_lines (buffer ++ chunk)).

(** All passes: the complete lines emitted, in order, and the final buffer. *)
Fixpoint feed_all (buffer : string) (chunks : list string) : list string * string :=
  match chunks with
  | [] => ([], buffer)
  | chunk :: rest =>
      let (lines, buffer') := feed buffer chunk in
      let (more, final) := feed_all buffer' rest in
      (lines ++ more, final)
  end.

Section WithRuntime.
Context {rt : Runtime}.

Definition streamMessage_deltas (chunks : list string) : list JSValue :=
  Client.decode_lines (fst (feed_all "" chunks)).

End WithRuntime.

End DocumentedReader.

(* ================================================================== *)
(** * A runtime to run the model on concrete frames *)
(* ================================================================== *)

(** A recursive-descent reader for JSON texts: objects, arrays, strings with
    the one-letter escapes, numbers, [true], [false], [null].  Numbers are
    read exactly (no rounding to a double) and a [\u] escape is refused, so it
    stands for [JSON.parse] on the texts without [\u] escapes only.  The
    theorems below hold for every [Runtime]; this one evaluates the examples. *)
Module Reference.
Import JS.

Local Open Scope char_scope.

Definition is_ws (c : ascii) : bool :=
  (c =? " ") || (c =? "009") || (c =? "010") || (c =? "013").

Fixpoint skip_ws (s : list ascii) : list ascii :=
  match s with
  | c :: rest => if is_ws c then skip_ws rest else s
  | [] => []
  end.

Definition digit_of (c : ascii) : option Z :=
  let n := Z.of_nat (nat_of_ascii c) in
  if ((48 <=? n) && (n <=? 57))%Z then Some (n - 48)%Z else None.

(** The digits at the head of [s]: their value above [acc], how many, the rest. *)
Fixpoint digits (s : list ascii) (acc : Z) (count : nat) : Z * nat * list ascii :=
  match s with
  | c :: rest =>
      match digit_of c with
      | Some d => digits rest (acc * 10 + d)%Z (S count)
      | None => (acc, count, s)
      end
  | [] => (acc, count, [])
  end.

Definition unescape (c : ascii) : option ascii :=
  if c =? "034" then Some "034"
  else if c =? "\" then Some "\"
  else if c =? "/" then Some "/"
  else if c =? "b" then Some "008"
  else if c =? "f" then Some "012"
  else if c =? "n" then Some "010"
  else if c =? "r" then Some "013"
  else if c =? "t" then Some "009"
  else None.

(** After the opening quote: the text up to the closing quote, and the rest. *)
Fixpoint string_body (s : list ascii) : option (string * list ascii) :=
  match s with
  | [] => None
  | c :: rest =>
      if c =? "034" then Some (EmptyString, rest)
      else if c =? "\" then
        match rest with
        | e :: rest' =>
            match unescape e, string_body rest' with
            | Some ch, Some (str, tail) => Some (String ch str, tail)
            | _, _ => None
            end
        | [] => None
        end
      else if (nat_of_ascii c <? 32)%nat then None
      else
        match string_body rest with
        | Some (str, tail) => Some (String c str, tail)
        | None => None
        end
  end.

(** [mantissa * 10 ^ exponent] *)
Definition scale (mantissa exponent : Z) : Q :=
  if (0 <=? exponent)%Z then inject_Z (mantissa * 10 ^ exponent)
  else Qmake mantissa (Z.to_pos (10 ^ (- exponent))).

Definition exponent_part (s : list ascii) : option (Z * list ascii) :=
  match s with
  | c :: rest =>
      if (c =? "e") || (c =? "E") then
        let (negative, rest') :=
          match rest with
          | sign :: after =>
              if sign =? "-" then (true, after)
              else if sign =? "+" then (false, after)
              else (false, rest)
          | [] => (false, rest)
          end in
        match digits rest' 0 0 with
        | (_, O, _) => None
        | (e, _, tail) => Some (if negative then (- e)%Z else e, tail)
        end
      else Some (0%Z, s)
  | [] => Some (0%Z, [])
  end.

Definition fraction_part (s : list ascii) (int : Z) : option (Z * nat * list ascii) :=
  match s with
  | c :: rest =>
      if c =? "." then
        match digits rest int 0 with
        | (_, O, _) => None
        | r => Some r
        end
      else Some (int, O, s)
  | [] => Some (int, O, [])
  end.

Definition number (s : list ascii) : option (JSValue * list ascii) :=
  let (negative, s1) :=
    match s with
    | c :: rest => if c =? "-" then (true, rest) else (false, s)
    | [] => (false, s)
    end in
  let int :=
    match s1 with
    | c :: rest => if c =? "0" then Some (0%Z, rest)
                   else match digits s1 0 0 with
                        | (_, O, _) => None
                        | (v, _, tail) => Some (v, tail)
                        end
    | [] => None
    end in
  match int with
  | None => None
  | Some (i, s2) =>
      match fraction_part s2 i with
      | None => None
      | Some (mantissa, places, s3) =>
          match exponent_part s3 with
          | None => None
          | Some (e, s4) =>
              let m := if negative then (- mantissa)%Z else mantissa in
              Some (JNum (Finite (scale m (e - Z.of_nat places))), s4)
          end
      end
  end.

Fixpoint literal (word : list ascii) (s : list ascii) : option (list ascii) :=
  match word, s with
  | [], _ => Some s
  | w :: word', c :: rest => if c =? w then literal word' rest else None
  | _ :: _, [] => None
  end.

(** A later member with the same key replaces the earlier one. *)
Fixpoint set_prop (key : string) (v : JSValue) (props : list (string * JSValue))
  : list (string * JSValue) :=
  match props with
  | [] => [(key, v)]
  | (k, old) :: rest =>
      if String.eqb k key then (k, v) :: rest else (k, old) :: set_prop key v rest
  end.

Fixpoint value (fuel : nat) (s : list ascii) {struct fuel}
  : option (JSValue * list ascii) :=
  match fuel with
  | O => None
  | S fuel' =>
      match skip_ws s with
      | [] => None
      | c :: rest =>
          if c =? "[" then
            match skip_ws rest with
            | c' :: rest' =>
                if c' =? "]" then Some (JArr [], rest') else elements fuel' rest []
            | [] => None
            end
          else if c =? "{" then
            match skip_ws rest with
            | c' :: rest' =>
                if c' =? "}" then Some (JObj [], rest') else members fuel' rest []
            | [] => None
            end
          else if c =? "034" then
            match string_body rest with
            | Some (str, tail) => Some (JStr str, tail)
            | None => None
            end
          else if c =? "t" then
            option_map (fun tail => (JBool true, tail)) (literal ["r"; "u"; "e"] rest)
          else if c =? "f" then
            option_map (fun tail => (JBool false, tail)) (literal ["a"; "l"; "s"; "e"] rest)
          else if c =? "n" then
            option_map (fun tail => (JNull, tail)) (literal ["u"; "l"; "l"] rest)
          else number (c :: rest)
      end
  end
with elements (fuel : nat) (s : list ascii) (acc : list JSValue) {struct fuel}
  : option (JSValue * list ascii) :=
  match fuel with
  | O => None
  | S fuel' =>
      match value fuel' s with
      | Some (v, tail) =>
          match skip_ws tail with
          | c :: rest =>
              if c =? "," then elements fuel' rest (acc ++ [v])
              else if c =? "]" then Some (JArr (acc ++ [v]), rest)
              else None
          | [] => None
          end
      | None => None
      end
  end
with members (fuel : nat) (s : list ascii) (acc : list (string * JSValue)) {struct fuel}
  : option (JSValue * list ascii) :=
  match fuel with
  | O => None
  | S fuel' =>
      match skip_ws s with
      | q :: rest =>
          if q =? "034" then
            match string_body rest with
            | Some (key, tail) =>
                match skip_ws tail with
                | colon :: tail' =>
                    if colon =? ":" then
                      match value fuel' tail' with
                      | Some (v, tail'') =>
                          match skip_ws tail'' with
                          | c :: rest' =>
                              if c =? "," then members fuel' rest' (set_prop key v acc)
                              else if c =? "}" then Some (JObj (set_prop key v acc), rest')
                              else None
                          | [] => None
                          end
                      | None => None
                      end
                    else None
                | [] => None
                end
            | None => None
            end
          else None
      | [] => None
      end
  end.

Definition json_parse (text : string) : option JSValue :=
  let s := list_ascii_of_string text in
  match value (2 * List.length s + 2) s with
  | Some (v, tail) =>
      match skip_ws tail with
      | [] => Some v
      | _ :: _ => None
      end
  | None => None
  end.

(** The coercions of the values no example coerces are those of a plain
    object: [Number({})] is [NaN] and [String({})] is ["[object Object]"]. *)
Definition runtime : Runtime := {|
  JSON_parse := json_parse;
  ToNumber_other := fun _ => NaN;
  ToString_other := fun _ => "[object Object]"%string
|}.

End Reference.

(* ================================================================== *)
(** * The specification's vocabulary *)
(* ================================================================== *)

(** What the specification says, written independently of the handlers, to
    compare with what they compute. *)
Module Spec.
Import JS.

(** [v.key], [undefined] where there is nothing to read. *)
Definition field (key : string) (v : JSValue) : JSValue :=
  match Get v key with
  | Normal x => x
  | Throw _ => JUndefined
  end.

(** [v[0]], [undefined] where there is nothing to read. *)
Definition first_item (v : JSValue) : JSValue :=
  match GetIndex0 v with
  | Normal x => x
  | Throw _ => JUndefined
  end.

(** "Present and non-empty": a text is non-empty when it is not [""]; an
    absent value ([undefined], [null]) is not present; nothing else in a JSON
    document is a text, and there the reading is that [false] and [0] are
    empty and every array and object is not. *)
Definition present_and_nonempty (v : JSValue) : bool :=
  match v with
  | JUndefined | JNull => false
  | JStr s => negb (s =? "")
  | JBool b => b
  | JNum n => match n with
              | NaN => false
              | _ => negb (num_is_zero n)
              end
  | JArr _ | JObj _ => true
  end.

(** [choices[0].delta.content] of a decoded payload *)
Definition delta_content_of (payload : JSValue) : JSValue :=
  field "content" (field "delta" (first_item (field "choices" payload))).

(** ** Request validation (section 4.1) *)

Inductive Violation : Type :=
| MissingMessages
| MalformedMessage
| TemperatureOutOfRange
| MaxTokensOutOfRange.

Definition violation_message (v : Violation) : string :=
  match v with
  | MissingMessages => Server.MSG_MESSAGES
  | MalformedMessage => Server.MSG_MESSAGE
  | TemperatureOutOfRange => Server.MSG_TEMPERATURE
  | MaxTokensOutOfRange => Server.MSG_MAX_TOKENS
  end.

Definition report (v : option Violation) : Server.Validation :=
  match v with
  | Some violation => Server.invalid (violation_message violation)
  | None => Server.ok
  end.

(** Rule 1: [messages] is present, is a sequence, and is non-empty. *)
Definition rule_messages (body : JSValue) : bool :=
  match field "messages" body with
  | JArr (_ :: _) => true
  | _ => false
  end.

(** Rule 2: every message has a non-empty [role] and a non-empty [content]. *)
Definition well_formed_message (msg : JSValue) : bool :=
  present_and_nonempty (field "role" msg) && present_and_nonempty (field "content" msg).

Definition rule_each_message (body : JSValue) : bool :=
  forallb well_formed_message (Server.array_items (field "messages" body)).

(** [lo <= v <= hi] for a number. *)
Definition within (lo hi : Z) (v : JSValue) : bool :=
  match v with
  | JNum n => num_le (num lo) n && num_le n (num hi)
  | _ => false
  end.

(** Rules 3 and 4: if present, the value lies in the range. *)
Definition in_range_if_present (lo hi : Z) (v : JSValue) : bool :=
  match v with
  | JUndefined => true
  | _ => within lo hi v
  end.

Definition rule_temperature (body : JSValue) : bool :=
  in_range_if_present 0 2 (field "temperature" body).

Definition rule_max_tokens (body : JSValue) : bool :=
  in_range_if_present 1 4096 (field "max_tokens" body).

(** The rules in order; the first one violated wins. *)
Definition first_violation (body : JSValue) : option Violation :=
  if negb (rule_messages body) then Some MissingMessages
  else if negb (rule_each_message body) then Some MalformedMessage
  else if negb (rule_temperature body) then Some TemperatureOutOfRange
  else if negb (rule_max_tokens body) then Some MaxTokensOutOfRange
  else None.

(** The request bodies the rules are stated for (section 3): an object whose
    [messages] holds no [null], and whose [temperature] and [max_tokens], when
    there, are numbers. *)
Definition is_present (v : JSValue) : bool :=
  match v with
  | JUndefined | JNull => false
  | _ => true
  end.

Definition number_or_absent (v : JSValue) : bool :=
  match v with
  | JUndefined => true
  | JNum NaN => false
  | JNum _ => true
  | _ => false
  end.

Definition request_shaped (body : JSValue) : bool :=
  match body with
  | JObj _ =>
      forallb is_present (Server.array_items (field "messages" body))
      && number_or_absent (field "temperature" body)
      && number_or_absent (field "max_tokens" body)
  | _ => false
  end.

(** ** Credential *)

Definition credential_configured (env : Server.Env) : Prop :=
  exists key, Server.env_GROQ_API_KEY env = Some key /\ key <> "".

(** ** The upstream request (section 4.2, defaults of the API reference) *)

(** A parameter the caller left out takes its default; one that is supplied
    is passed as it is. *)
Definition or_default (d v : JSValue) : JSValue :=
  match v with
  | JUndefined => d
  | supplied => supplied
  end.

Definition request_for (env : Server.Env) (props : list (string * JSValue))
    (items : list JSValue) : Server.FetchRequest :=
  {| Server.url := "https://api.groq.com/openai/v1/chat/completions";
     Server.method := "POST";
     Server.headers :=
       [("Authorization", Server.bearer (Server.env_GROQ_API_KEY env));
        ("Content-Type", "application/json")];
     Server.body :=
       JObj [("model", or_default (JStr "llama-3.3-70b-versatile") (lookup "model" props));
             ("messages", JArr (Server.systemMessage :: items));
             ("temperature", or_default (JNum (Finite (7 # 10))) (lookup "temperature" props));
             ("max_tokens", or_default (JNum (num 2048)) (lookup "max_tokens" props));
             ("top_p", JNum (num 1));
             ("stream", or_default (JBool false) (lookup "stream" props))] |}.

(** ** Streams *)

(** The text of a stream delivered as [chunks]. *)
Fixpoint stream_text (chunks : list string) : string :=
  match chunks with
  | [] => ""
  | chunk :: rest => chunk ++ stream_text rest
  end.

(** Lines put back together: each line with its line break, then the rest. *)
Fixpoint restore (lines : list string) (residual : string) : string :=
  match lines with
  | [] => residual
  | line :: rest => line ++ nl ++ restore rest residual
  end.

Definition is_data_line (line : string) : bool := startsWith line "data: ".

(** The SSE events for the [data: ] lines among [lines], in order. *)
Definition events_of (lines : list string) : list string :=
  List.map Server.frame (List.filter is_data_line lines).

(** What an unbuffered relay forwards: the events of each chunk's own parts. *)
Definition events_per_chunk (chunks : list string) : list string :=
  List.flat_map (fun chunk => events_of (split_lines chunk)) chunks.

(** A chunk that ends where a line ends. *)
Definition line_aligned (chunk : string) : Prop :=
  chunk = "" \/ exists text, chunk = (text ++ nl)%string.

End Spec.

(* ================================================================== *)
(** * Concrete inputs *)
(* ================================================================== *)

Module Examples.
Import JS.

(** JSON texts are written with ['] for the double quote. *)
Fixpoint dq (s : string) : string :=
  match s with
  | EmptyString => EmptyString
  | String c rest => String (if Ascii.eqb c "'"%char then "034"%char else c) (dq rest)
  end.

(** One SSE frame carrying the delta [Hi], and the same bytes cut inside the
    JSON payload (the split of section 8 of the specification). *)
Definition hi_frame : string :=
  (dq "data: {'choices':[{'delta':{'content':'Hi'}}]}" ++ nl ++ nl)%string.
Definition hi_chunk1 : string := dq "data: {'choices':[{'delta".
Definition hi_chunk2 : string := (dq "':{'content':'Hi'}}]}" ++ nl ++ nl)%string.

Definition user_message : JSValue :=
  JObj [("role", JStr "user"); ("content", JStr "Hello")].

Definition env_with_key : Server.Env :=
  {| Server.env_NODE_ENV := None; Server.env_GROQ_API_KEY := Some "gsk_test" |}.

Definition env_without_key : Server.Env :=
  {| Server.env_NODE_ENV := None; Server.env_GROQ_API_KEY := None |}.

(** An upstream that answers every request with [r]. *)
Definition always (r : Server.UpstreamResponse) : Server.FetchRequest -> Server.FetchOutcome :=
  fun _ => Server.Resolved r.

Definition upstream_stream (chunks : list string) (fails : bool) : Server.UpstreamResponse :=
  {| Server.status := 200;
     Server.json := Throw SyntaxError;
     Server.chunks := chunks;
     Server.read_fails := fails |}.

Definition upstream_error (code : Z) (payload : Completion JSValue) : Server.UpstreamResponse :=
  {| Server.status := code;
     Server.json := payload;
     Server.chunks := [];
     Server.read_fails := false |}.

End Examples.

(* ================================================================== *)
(** * server.js: the other routes *)
(* ================================================================== *)

Module Routes.
Import JS.
Import Server.

Definition MODELS_URL : string := "https://api.groq.com/openai/v1/models".

Definition MODELS_FAILED : JSValue :=
  error_body (JStr "Failed to fetch available models").

(** [GET /api/models]: the answer and the requests handed to [fetch].  A
    rejected [fetch], the [throw] on [!response.ok] and a rejected
    [response.json()] all end in the [catch]. *)
Definition models (env : Env) (fetch : FetchRequest -> FetchOutcome)
  : HttpResponse * list FetchRequest :=
  let cfg := CONFIG env in
  if negb (validateApiKey cfg)
  then (Json 500 (error_body (JStr "API key not configured")), [])
  else
    let request := {|
      url := MODELS_URL;
      method := "GET";
      headers := [("Authorization", bearer (GROQ_API_KEY cfg));
                  ("Content-Type", "application/json")];
      body := JUndefined |} in
    (match fetch request with
     | Rejected => Json 500 MODELS_FAILED
     | Resolved response =>
         if negb (response_ok response) then Json 500 MODELS_FAILED
         else match json response with
              | Normal data => Json 200 data
              | Throw _ => Json 500 MODELS_FAILED
              end
     end,
     [request]).

(** The 404 handler. *)
Definition notFound (req_method req_path : string) : HttpResponse :=
  Json 404 (JObj [("error", JStr "Not Found");
                  ("message", JStr ("Cannot " ++ req_method ++ " " ++ req_path))]).

(** The global error handler; [err_message] is [err.message]. *)
Definition errorHandler (env : Env) (err_message : JSValue) : HttpResponse :=
  Json 500 (JObj [("error", JStr "Internal Server Error");
                  ("message", if NODE_ENV (CONFIG env) =? "development"
                              then err_message
                              else JStr "Something went wrong")]).

End Routes.

(* ================================================================== *)
(** * public/chatbot.js: the API client and the error shown *)
(* ================================================================== *)

Module Api.
Import JS.

Definition DEFAULT_MODEL : JSValue := JStr "llama-3.3-70b-versatile".
Definition DEFAULT_TEMPERATURE : JSValue := JNum (Finite (7 # 10)).
Definition DEFAULT_STREAM : JSValue := JBool true.

(** The value [API.sendMessage] hands to [JSON.stringify]. *)
Definition request_body (messages : JSValue) (options : list (string * JSValue)) : JSValue :=
  JObj [("messages", messages);
        ("model", Server.default_to DEFAULT_MODEL (lookup "model" options));
        ("temperature", Server.default_to DEFAULT_TEMPERATURE (lookup "temperature" options));
        ("max_tokens", JNum (num 2048));
        ("stream", Server.default_to DEFAULT_STREAM (lookup "stream" options))].

(** [haystack.includes(needle)] *)
Fixpoint includes (haystack needle : string) : bool :=
  if startsWith haystack needle then true
  else match haystack with
       | EmptyString => false
       | String _ rest => includes rest needle
       end.

(** The catch block of [ChatApp.sendMessage]: the text added to the chat for
    an error whose message is [message]. *)
Definition error_reply (message : string) : string :=
  ("Sorry, I encountered an error. " ++
   (if includes message "Failed to fetch"
    then "Please make sure the server is running at http://localhost:3000"
    else if includes message "configuration error"
    then "Server configuration error. Check GROQ_API_KEY in .env file."
    else if includes message "decommissioned"
    then "The AI model is outdated. Please update to a newer model."
    else message))%string.

(** [API.checkHealth]: [None] when [fetch] rejects, otherwise the status of
    the response and what [response.json()] gives. *)
Definition checkHealth (outcome : option (Z * Completion JSValue)) : bool :=
  match outcome with
  | None => false
  | Some (status, payload) =>
      try_catch
        (bind payload (fun data => Normal ((200 <=? status)%Z && (status <=? 299)%Z)))
        (fun _ => false)
  end.

(** [ChatApp.checkHealth]: the toast shown, if any. *)
Definition health_toast (healthy : bool) : option string :=
  if negb healthy
  then Some "Cannot connect to server. Please make sure server is running."
  else None.

Section WithRuntime.
Context {rt : Runtime}.

(** [API.sendMessage] once [fetch] resolved with [status], [statusText] and a
    body that [response.json()] reads as [payload]: [None] when the response
    is returned, [Some m] when [new Error(m)] is thrown. *)
Definition sendMessage_error (status : Z) (statusText : string)
    (payload : Completion JSValue) : option string :=
  if negb ((200 <=? status)%Z && (status <=? 299)%Z) then
    Some (try_catch
            (bind payload (fun error =>
             bind (Get error "error") (fun message =>
             Normal (ToString (js_or message (JStr "API request failed"))))))
            (fun _ => (ToString (JNum (num status)) ++ " " ++ statusText)%string))
  else None.

End WithRuntime.

End Api.

(* ================================================================== *)
(** * public/chatbot.js: the conversation history *)
(* ================================================================== *)

(** The fields of [ChatApp] that [saveChat], [newChat], [loadChat],
    [deleteChat] and [clearAll] read and write.  What they draw on the page
    (the history list, the toasts) is left out; [Date.now()],
    [Utils.generateId()] and the answer to [confirm] are inputs. *)
Module History.
Import JS.

Definition MAX_CHAT_HISTORY : nat := 100.
Definition AUTO_SAVE : bool := true.

Record Message : Type := {
  role : string;
  content : string
}.

Record Chat : Type := {
  id : string;
  title : string;
  messages : list Message;
  timestamp : Z;
  model : JSValue
}.

Record App : Type := {
  currentChatId : option string;      (* [null] is [None] *)
  chats : list Chat;
  currentMessages : list Message;
  settings_model : JSValue;
  stored : option (list Chat)         (* the last value handed to [Storage.set('chats', ...)] *)
}.

(** Truthiness of [this.currentChatId]. *)
Definition id_truthy (cid : option string) : bool :=
  match cid with
  | Some s => negb (s =? "")
  | None => false
  end.

(** [c.id === cid] *)
Definition id_is (cid : option string) (c : Chat) : bool :=
  match cid with
  | Some s => id c =? s
  | None => false
  end.

(** [chats.findIndex(pred)] ([None] for [-1]) *)
Fixpoint findIndex (pred : Chat -> bool) (l : list Chat) : option nat :=
  match l with
  | [] => None
  | c :: rest => if pred c then Some O else option_map S (findIndex pred rest)
  end.

(** [chats[i] = c] for an index within the array *)
Fixpoint assign (i : nat) (c : Chat) (l : list Chat) : list Chat :=
  match i, l with
  | O, _ :: rest => c :: rest
  | S i', x :: rest => x :: assign i' c rest
  | _, [] => []
  end.

(** [s.substring(0, 50)] cuts after 50 UTF-16 code units, and a text is held
    here by its bytes; the cut is therefore taken as given. *)
Class Text : Type := {
  substring_0_50 : string -> string
}.

Section Operations.
Context {tx : Text}.

(** [this.currentMessages[0]?.content.substring(0, 50) || 'New Chat'] *)
Definition title_of (msgs : list Message) : string :=
  match msgs with
  | first :: _ =>
      let t := substring_0_50 (content first) in
      if t =? "" then "New Chat" else t
  | [] => "New Chat"
  end.

Definition chatData (now : Z) (app : App) (cid : string) : Chat :=
  {| id := cid;
     title := title_of (currentMessages app);
     messages := currentMessages app;
     timestamp := now;
     model := settings_model app |}.

Definition saveChat (now : Z) (app : App) : App :=
  match currentChatId app with
  | None => app
  | Some cid =>
      if (cid =? "") || (List.length (currentMessages app) =? 0)%nat then app
      else
        let data := chatData now app cid in
        let updated :=
          match findIndex (id_is (Some cid)) (chats app) with
          | Some existingIndex => assign existingIndex data (chats app)
          | None => data :: chats app
          end in
        let kept :=
          if (MAX_CHAT_HISTORY <? List.length updated)%nat
          then firstn MAX_CHAT_HISTORY updated
          else updated in
        {| currentChatId := currentChatId app;
           chats := kept;
           currentMessages := currentMessages app;
           settings_model := settings_model app;
           stored := Some kept |}
  end.

Definition newChat (fresh : string) (now : Z) (app : App) : App :=
  let saved :=
    if id_truthy (currentChatId app) && AUTO_SAVE then saveChat now app else app in
  {| currentChatId := Some fresh;
     chats := chats saved;
     currentMessages := [];
     settings_model := settings_model saved;
     stored := stored saved |}.

Definition loadChat (chatId : string) (now : Z) (app : App) : App :=
  match find (id_is (Some chatId)) (chats app) with
  | None => app
  | Some chat =>
      let saved :=
        if id_truthy (currentChatId app) && AUTO_SAVE then saveChat now app else app in
      {| currentChatId := Some chatId;
         chats := chats saved;
         currentMessages := messages chat;
         settings_model := settings_model saved;
         stored := stored saved |}
  end.

(** [this.currentChatId === chatId] *)
Definition is_current (chatId : string) (app : App) : bool :=
  match currentChatId app with
  | Some cid => cid =? chatId
  | None => false
  end.

Definition deleteChat (confirmed : bool) (chatId fresh : string) (now : Z) (app : App)
  : App :=
  if negb confirmed then app
  else
    let remaining := filter (fun c => negb (id c =? chatId)) (chats app) in
    let deleted :=
      {| currentChatId := currentChatId app;
         chats := remaining;
         currentMessages := currentMessages app;
         settings_model := settings_model app;
         stored := Some remaining |} in
    if is_current chatId app then newChat fresh now deleted else deleted.

Definition clearAll (confirmed : bool) (fresh : string) (now : Z) (app : App) : App :=
  if negb confirmed then app
  else
    newChat fresh now
      {| currentChatId := currentChatId app;
         chats := [];
         currentMessages := currentMessages app;
         settings_model := settings_model app;
         stored := Some [] |}.

End Operations.

(** ** One streamed turn *)

(** [{ role, content }] as it goes into the request. *)
Definition message_json (m : Message) : JSValue :=
  JObj [("role", JStr (role m)); ("content", JStr (content m))].

Definition messages_json (msgs : list Message) : JSValue :=
  JArr (List.map message_json msgs).

Section WithRuntime.
Context {rt : Runtime}.

(** [sendMessage] with streaming on, when the reader runs to [done]: the
    user's message is pushed, then the assistant's with [fullResponse]. *)
Definition streamed_turn (message : string) (chunks : list string) (msgs : list Message)
  : list Message :=
  (msgs ++ [{| role := "user"; content := message |}])
    ++ [{| role := "assistant"; content := Client.streamResponse chunks "" |}].

End WithRuntime.

(** ** Sequences of operations *)

Inductive Action : Type :=
| SaveChat (now : Z)
| NewChat (fresh : string) (now : Z)
| LoadChat (chatId : string) (now : Z)
| DeleteChat (confirmed : bool) (chatId fresh : string) (now : Z)
| ClearAll (confirmed : bool) (fresh : string) (now : Z).

Section Sequences.
Context {tx : Text}.

Definition perform (app : App) (a : Action) : App :=
  match a with
  | SaveChat now => saveChat now app
  | NewChat fresh now => newChat fresh now app
  | LoadChat chatId now => loadChat chatId now app
  | DeleteChat confirmed chatId fresh now => deleteChat confirmed chatId fresh now app
  | ClearAll confirmed fresh now => clearAll confirmed fresh now app
  end.

End Sequences.

(** What holds of the history between operations: at most
    [MAX_CHAT_HISTORY] conversations, no two with the same id, and, once
    something was handed to [Storage.set], that is the history in memory. *)
Definition consistent (app : App) : Prop :=
  (List.length (chats app) <= MAX_CHAT_HISTORY)%nat
  /\ NoDup (List.map id (chats app))
  /\ (forall l, stored app = Some l -> l = chats app).

End History.

(* ================================================================== *)
(** * public/chatbot.js: Utils and Storage *)
(* ================================================================== *)

Module Utils.

(** [`${n}`] for an integer *)
Definition show (n : Z) : string := NilZero.string_of_int (Z.to_int n).

(** [Utils.getTimeAgo(timestamp)] at [Date.now() = now], in milliseconds;
    [toLocaleDateString] stands for [new Date(timestamp).toLocaleDateString()].
    [Math.floor] of the quotient is the floor division. *)
Definition getTimeAgo (toLocaleDateString : Z -> string) (now timestamp : Z) : string :=
  let diff := (now - timestamp)%Z in
  let minutes := (diff / 60000)%Z in
  let hours := (diff / 3600000)%Z in
  let days := (diff / 86400000)%Z in
  if (minutes <? 1)%Z then "Just now"
  else if (minutes <? 60)%Z then (show minutes ++ "m ago")%string
  else if (hours <? 24)%Z then (show hours ++ "h ago")%string
  else if (days <? 7)%Z then (show days ++ "d ago")%string
  else toLocaleDateString timestamp.

End Utils.

Module LocalStorage.
Import JS.

(** [localStorage]: the items, and whether a content fits the quota
    ([setItem] throws when it does not). *)
Definition Items : Type := list (string * string).

Fixpoint getItem (key : string) (items : Items) : option string :=
  match items with
  | [] => None
  | (k, v) :: rest => if k =? key then Some v else getItem key rest
  end.

Fixpoint removeItem (key : string) (items : Items) : Items :=
  match items with
  | [] => []
  | (k, v) :: rest => if k =? key then removeItem key rest else (k, v) :: removeItem key rest
  end.

Section WithQuota.
Context {rt : Runtime}.
Variable fits : Items -> bool.
(** [JSON.stringify]; [None] where it returns [undefined]. *)
Variable JSON_stringify : JSValue -> option string.

(** [localStorage.setItem(key, value)]: [None] when it throws. *)
Definition setItem (key value : string) (items : Items) : option Items :=
  let items' := (key, value) :: removeItem key items in
  if fits items' then Some items' else None.

(** [Storage.get(key, defaultValue)] *)
Definition get (key : string) (defaultValue : JSValue) (items : Items) : JSValue :=
  match getItem key items with
  | Some item =>
      if negb (item =? "") then
        match JSON_parse item with
        | Some v => v
        | None => defaultValue
        end
      else defaultValue
  | None => defaultValue
  end.

(** [Storage.set(key, value)]: what it returns and the items afterwards. *)
Definition set (key : string) (value : JSValue) (items : Items) : bool * Items :=
  let text := match JSON_stringify value with
              | Some t => t
              | None => "undefined"
              end in
  match setItem key text items with
  | Some items' => (true, items')
  | None => (false, items)
  end.

(** [Storage.remove(key)] *)
Definition remove (key : string) (items : Items) : bool * Items :=
  (true, removeItem key items).

End WithQuota.

End LocalStorage.

(* ================================================================== *)
(** * SSE events *)
(* ================================================================== *)

Module Framing.
Import JS.

(** One SSE event: a [data: ] line that holds no line break, then a blank
    line. *)
Definition is_event (w : string) : Prop :=
  exists line,
    w = Server.frame line /\ startsWith line "data: " = true /\ split_lines line = [line].

End Framing.

(* ================================================================== *)
(** * More concrete inputs *)
(* ================================================================== *)

Module Samples.
Import JS.

Definition hello : History.Message := {| History.role := "user"; History.content := "Hello" |}.

Definition chat_a : History.Chat :=
  {| History.id := "a"; History.title := "Earlier";
     History.messages := [hello]; History.timestamp := 1; History.model := JStr "m" |}.

Definition open_chat : History.App :=
  {| History.currentChatId := Some "b";
     History.chats := [chat_a];
     History.currentMessages := [hello];
     History.settings_model := JStr "m";
     History.stored := None |}.

(** The cut of a title on ASCII text, where a code unit is a byte. *)
Definition ascii_text : History.Text :=
  {| History.substring_0_50 := substring 0 50 |}.

(** [JSON.stringify] on the one value stored in the examples. *)
Definition stringify (v : JSValue) : option string :=
  match v with
  | JArr [] => Some "[]"
  | _ => None
  end.

End Samples.

(* ================================================================== *)
(** * Facts about lines *)
(* ================================================================== *)

Section Lines.
Import JS.

Lemma string_app_assoc (a b c : string) : ((a ++ b) ++ c = a ++ (b ++ c))%string.
Proof. induction a as [| x a IH]; simpl; [reflexivity | now rewrite IH]. Qed.

Lemma string_app_empty_r (a : string) : (a ++ "")%string = a.
Proof. induction a as [| x a IH]; simpl; [reflexivity | now rewrite IH]. Qed.

Lemma split_lines_not_nil (s : string) : split_lines s <> [].
Proof.
  destruct s as [| c s]; simpl; [discriminate |].
  destruct (Ascii.eqb c LF); [discriminate |].
  destruct (split_lines s); discriminate.
Qed.

(** Splitting at a line break splits the list of parts. *)
Lemma split_lines_break (x rest : string) :
  split_lines (x ++ String LF rest) = split_lines x ++ split_lines rest.
Proof.
  induction x as [| c x IH]; simpl.
  - reflexivity.
  - destruct (Ascii.eqb c LF).
    + now rewrite IH.
    + rewrite IH. pose proof (split_lines_not_nil x) as Hne.
      destruct (split_lines x) as [| part parts]; [contradiction | reflexivity].
Qed.

(** The last part holds no line break. *)
Lemma split_lines_last (s : string) :
  split_lines (last (split_lines s) "") = [last (split_lines s) ""].
Proof.
  induction s as [| c s IH]; simpl; [reflexivity |].
  pose proof (split_lines_not_nil s) as Hne.
  destruct (Ascii.eqb c LF) eqn:Ec.
  - destruct (split_lines s) as [| part parts] eqn:E; [contradiction | exact IH].
  - destruct (split_lines s) as [| part parts] eqn:E; [contradiction |].
    destruct parts as [| part' parts'].
    + simpl in *. rewrite Ec, IH. reflexivity.
    + exact IH.
Qed.

(** [split('\n')] then [join('\n')] gives the text back. *)
Lemma join_split (s : string) : join_lines (split_lines s) = s.
Proof.
  induction s as [| c s IH]; simpl; [reflexivity |].
  pose proof (split_lines_not_nil s) as Hne.
  destruct (Ascii.eqb_spec c LF) as [-> | Hc].
  - destruct (split_lines s) as [| part parts] eqn:E; [contradiction |].
    simpl in *. now rewrite IH.
  - destruct (split_lines s) as [| part parts] eqn:E; [contradiction |].
    destruct parts; simpl in *; now rewrite IH.
Qed.

(** All parts but the last, each with its line break, then the last part. *)
Lemma restore_pop (s : string) :
  Spec.restore (removelast (split_lines s)) (last (split_lines s) "") = s.
Proof.
  induction s as [| c s IH]; simpl; [reflexivity |].
  pose proof (split_lines_not_nil s) as Hne.
  destruct (Ascii.eqb_spec c LF) as [-> | Hc];
    destruct (split_lines s) as [| part parts] eqn:E; try contradiction.
  - change (Spec.restore ("" :: removelast (part :: parts)) (last (part :: parts) "")
            = String LF s).
    cbn [Spec.restore]. rewrite IH. reflexivity.
  - destruct parts as [| part' parts'].
    + simpl in *. now rewrite IH.
    + change (Spec.restore (String c part :: removelast (part' :: parts'))
                (last (part' :: parts') "") = String c s).
      change (Spec.restore (part :: removelast (part' :: parts'))
                (last (part' :: parts') "") = s) in IH.
      cbn [Spec.restore] in *. rewrite <- IH. reflexivity.
Qed.

Lemma restore_app (a b : list string) (residual : string) :
  Spec.restore (a ++ b) residual = Spec.restore a (Spec.restore b residual).
Proof.
  induction a as [| line a IH]; simpl; [reflexivity | now rewrite IH].
Qed.

(** Parts of a text that continues after [a]. *)
Lemma split_lines_app (a b : string) :
  split_lines (a ++ b) =
  removelast (split_lines a) ++ split_lines (last (split_lines a) "" ++ b).
Proof.
  induction a as [| c a IH]; simpl; [reflexivity |].
  pose proof (split_lines_not_nil a) as Hne.
  destruct (Ascii.eqb c LF) eqn:Ec.
  - rewrite IH. destruct (split_lines a) as [| part parts]; [contradiction | reflexivity].
  - rewrite IH. destruct (split_lines a) as [| part parts] eqn:E; [contradiction |].
    destruct parts as [| part' parts'].
    + cbn [removelast last app]. simpl. rewrite Ec.
      destruct (split_lines (part ++ b)) eqn:E'; [now apply split_lines_not_nil in E' |].
      reflexivity.
    + reflexivity.
Qed.

End Lines.

(* ================================================================== *)
(** * The buffered reader of the documentation *)
(* ================================================================== *)

Section DocumentedReaderFacts.
Import JS.

Lemma feed_lossless (buffer chunk : string) :
  Spec.restore (fst (DocumentedReader.feed buffer chunk))
               (snd (DocumentedReader.feed buffer chunk)) = (buffer ++ chunk)%string.
Proof. unfold DocumentedReader.feed, DocumentedReader.pop. simpl. apply restore_pop. Qed.

Lemma feed_all_step (buffer chunk : string) (rest : list string) :
  DocumentedReader.feed_all buffer (chunk :: rest) =
  (fst (DocumentedReader.feed buffer chunk)
     ++ fst (DocumentedReader.feed_all (snd (DocumentedReader.feed buffer chunk)) rest),
   snd (DocumentedReader.feed_all (snd (DocumentedReader.feed buffer chunk)) rest)).
Proof.
  cbn [DocumentedReader.feed_all].
  destruct (DocumentedReader.feed buffer chunk) as [lines buffer']. cbn [fst snd].
  destruct (DocumentedReader.feed_all buffer' rest) as [more final]. reflexivity.
Qed.

(** X6. No byte is lost or duplicated by the buffered reader: the emitted lines,
    each with its line break, followed by the final buffer, are the text fed. *)
Lemma feed_all_lossless (chunks : list string) : forall buffer,
  Spec.restore (fst (DocumentedReader.feed_all buffer chunks))
               (snd (DocumentedReader.feed_all buffer chunks))
  = (buffer ++ Spec.stream_text chunks)%string.
Proof.
  induction chunks as [| chunk rest IH]; intros buffer.
  - simpl. now rewrite string_app_empty_r.
  - rewrite feed_all_step. cbn [fst snd Spec.stream_text].
    rewrite restore_app, IH.
    pose proof (feed_lossless buffer chunk) as Hfeed.
    set (lines := fst (DocumentedReader.feed buffer chunk)) in *.
    set (buffer' := snd (DocumentedReader.feed buffer chunk)) in *.
    rewrite <- string_app_assoc, <- Hfeed.
    clear. induction lines as [| line lines IHl]; simpl; [reflexivity |].
    rewrite IHl. now rewrite !string_app_assoc.
Qed.

(** The emitted lines and the final buffer are the parts of the whole text:
    they do not depend on where the chunks were cut. *)
Lemma feed_all_parts (chunks : list string) : forall buffer,
  split_lines buffer = [buffer] ->
  fst (DocumentedReader.feed_all buffer chunks)
    ++ [snd (DocumentedReader.feed_all buffer chunks)]
  = split_lines (buffer ++ Spec.stream_text chunks).
Proof.
  induction chunks as [| chunk rest IH]; intros buffer Hbuffer.
  - simpl. now rewrite string_app_empty_r.
  - rewrite feed_all_step. cbn [fst snd Spec.stream_text].
    unfold DocumentedReader.feed, DocumentedReader.pop. cbn [fst snd].
    rewrite <- app_assoc, IH by apply split_lines_last.
    now rewrite <- string_app_assoc, <- split_lines_app.
Qed.

(** X7. The buffered reader does not depend on where the chunks are cut: two
    sequences of chunks that carry the same text yield the same deltas. *)
Lemma documented_reader_chunk_independent {rt : Runtime} (chunks chunks' : list string) :
  Spec.stream_text chunks = Spec.stream_text chunks' ->
  DocumentedReader.streamMessage_deltas chunks = DocumentedReader.streamMessage_deltas chunks'.
Proof.
  intros Htext. unfold DocumentedReader.streamMessage_deltas.
  pose proof (feed_all_parts chunks "" eq_refl) as H1.
  pose proof (feed_all_parts chunks' "" eq_refl) as H2.
  simpl in H1, H2. rewrite Htext, <- H2 in H1.
  apply app_inj_tail in H1. destruct H1 as [H1 _]. now rewrite H1.
Qed.

End DocumentedReaderFacts.

(* ================================================================== *)
(** * The stream reader of chatbot.js *)
(* ================================================================== *)

Section ClientFacts.
Import JS.

(** C1. The reader of [public/chatbot.js] splits every chunk on its own and
    keeps no buffer between reads.  Fed the frame that carries [Hi] in one
    chunk it yields the delta [Hi]; fed the same bytes cut inside the JSON
    payload it hands the two halves to the decode step as two lines, which are
    not the lines of the text, and yields no delta: the text is lost.  The
    buffered reader that the documentation prints emits the lines of the text
    and yields [Hi] for the same chunks. *)
Theorem streamResponse_loses_split_frame :
  let chunks := [Examples.hi_chunk1; Examples.hi_chunk2] in
  Spec.stream_text chunks = Examples.hi_frame
  /\ Client.streamResponse_deltas (rt := Reference.runtime) [Examples.hi_frame] = [JStr "Hi"]
  /\ Client.streamResponse (rt := Reference.runtime) [Examples.hi_frame] "" = "Hi"
  /\ Client.streamResponse_lines chunks
     = [Examples.hi_chunk1; Examples.dq "':{'content':'Hi'}}]}"; ""; ""]
  /\ Client.streamResponse_lines chunks <> Client.streamResponse_lines [Examples.hi_frame]
  /\ Client.streamResponse_deltas (rt := Reference.runtime) chunks = []
  /\ Client.streamResponse (rt := Reference.runtime) chunks "" = ""
  /\ DocumentedReader.feed_all "" chunks
     = ([Examples.dq "data: {'choices':[{'delta':{'content':'Hi'}}]}"; ""], "")
  /\ DocumentedReader.streamMessage_deltas (rt := Reference.runtime) chunks = [JStr "Hi"].
Proof.
  cbv zeta. repeat split; try (vm_compute; reflexivity); vm_compute; discriminate.
Qed.

Context {rt : Runtime}.

Lemma present_and_nonempty_ToBoolean (v : JSValue) :
  Spec.present_and_nonempty v = ToBoolean v.
Proof. destruct v as [| | b | n | str | items | props]; reflexivity. Qed.

Lemma nonempty_text (str : string) :
  Spec.present_and_nonempty (JStr str) = true <-> str <> "".
Proof.
  simpl. destruct (String.eqb_spec str ""); simpl; split; intros H; congruence.
Qed.

Lemma OptGet_field (v : JSValue) (key : string) : OptGet v key = Normal (Spec.field key v).
Proof. destruct v; reflexivity. Qed.

Lemma Get_cases (v : JSValue) (key : string) :
  Get v key = Normal (Spec.field key v)
  \/ (exists e, Get v key = Throw e) /\ Spec.field key v = JUndefined.
Proof. destruct v; simpl; eauto. Qed.

Lemma GetIndex0_cases (v : JSValue) :
  GetIndex0 v = Normal (Spec.first_item v)
  \/ (exists e, GetIndex0 v = Throw e) /\ Spec.first_item v = JUndefined.
Proof. destruct v; simpl; eauto. Qed.

Lemma js_or_empty (v : JSValue) :
  ToBoolean (js_or v (JStr "")) = ToBoolean v
  /\ (ToBoolean v = true -> js_or v (JStr "") = v).
Proof.
  unfold js_or. destruct (ToBoolean v) eqn:E; simpl.
  - auto.
  - split; [reflexivity | discriminate].
Qed.

(** The optional chain of the decode step against the path of the payload:
    it throws only where the path leads nowhere. *)
Lemma content_chain (payload : JSValue) :
  match bind (Get payload "choices") (fun choices =>
        bind (GetIndex0 choices) (fun first =>
        bind (OptGet first "delta") (fun delta =>
        bind (OptGet delta "content") (fun content =>
        Normal (js_or content (JStr "")))))) with
  | Normal content => content = js_or (Spec.delta_content_of payload) (JStr "")
  | Throw _ => Spec.delta_content_of payload = JUndefined
  end.
Proof.
  unfold Spec.delta_content_of.
  destruct (Get_cases payload "choices") as [-> | [[e ->] ->]]; [| reflexivity].
  cbn [bind].
  destruct (GetIndex0_cases (Spec.field "choices" payload)) as [-> | [[e ->] ->]];
    [| reflexivity].
  cbn [bind]. rewrite OptGet_field. cbn [bind]. rewrite OptGet_field. reflexivity.
Qed.

(** The decode step in closed form. *)
Lemma decode_line_eq (line : string) :
  Client.decode_line line =
  if startsWith line "data: " then
    if slice line 6 =? "[DONE]" then None
    else match JSON_parse (slice line 6) with
         | Some payload =>
             if Spec.present_and_nonempty (Spec.delta_content_of payload)
             then Some (Spec.delta_content_of payload)
             else None
         | None => None
         end
  else None.
Proof.
  unfold Client.decode_line.
  destruct (startsWith line "data: "); [| reflexivity].
  destruct (slice line 6 =? "[DONE]"); [reflexivity |].
  unfold Client.delta_content, parse.
  destruct (JSON_parse (slice line 6)) as [payload |]; [| reflexivity].
  cbn [bind]. pose proof (content_chain payload) as Hchain.
  rewrite present_and_nonempty_ToBoolean.
  destruct (bind (Get payload "choices") _) as [content | e].
  - subst content. cbn [bind try_catch].
    destruct (js_or_empty (Spec.delta_content_of payload)) as [-> Hsame].
    destruct (ToBoolean (Spec.delta_content_of payload)); [| reflexivity].
    now rewrite Hsame.
  - rewrite Hchain. reflexivity.
Qed.

(** C3. The decode step of [streamResponse] yields a content delta exactly
    when the line starts with [data: ], the payload after the marker is not
    [[DONE]], the payload parses as JSON and [choices[0].delta.content] is
    present and non-empty, and the delta is then that content.  In every other
    case (no marker, the sentinel, a parse failure, no content) it yields
    nothing, no exception leaves it, and the lines that follow are decoded. *)
Theorem decode_line_yields_exactly (line : string) :
  (forall content,
     Client.decode_line line = Some content <->
     startsWith line "data: " = true
     /\ slice line 6 <> "[DONE]"
     /\ exists payload,
          JSON_parse (slice line 6) = Some payload
          /\ Spec.delta_content_of payload = content
          /\ Spec.present_and_nonempty content = true)
  /\ (startsWith line "data: " = false -> Client.decode_line line = None)
  /\ (slice line 6 = "[DONE]" -> Client.decode_line line = None)
  /\ (JSON_parse (slice line 6) = None -> Client.decode_line line = None)
  /\ (forall rest,
        Client.decode_lines (line :: rest) =
        match Client.decode_line line with
        | Some content => content :: Client.decode_lines rest
        | None => Client.decode_lines rest
        end).
Proof.
  rewrite decode_line_eq. repeat split.
  - destruct (startsWith line "data: "); [| discriminate]. reflexivity.
  - destruct (startsWith line "data: "); [| discriminate].
    destruct (String.eqb_spec (slice line 6) "[DONE]"); [discriminate | assumption].
  - destruct (startsWith line "data: "); [| discriminate].
    destruct (slice line 6 =? "[DONE]"); [discriminate |].
    destruct (JSON_parse (slice line 6)) as [payload |]; [| discriminate].
    exists payload.
    destruct (Spec.present_and_nonempty (Spec.delta_content_of payload)) eqn:E;
      [| discriminate].
    injection H as <-. auto.
  - intros (Hmarker & Hdone & payload & Hparse & Hcontent & Hnonempty).
    rewrite Hmarker, Hparse. apply String.eqb_neq in Hdone. rewrite Hdone.
    subst content. now rewrite Hnonempty.
  - intros ->. reflexivity.
  - intros ->. destruct (startsWith line "data: "); reflexivity.
  - intros ->. destruct (startsWith line "data: "); [| reflexivity].
    destruct (slice line 6 =? "[DONE]"); reflexivity.
  - intros rest. rewrite <- decode_line_eq. reflexivity.
Qed.

End ClientFacts.

(** C3 at the frame of section 8: the line that carries [Hi] decodes to [Hi]. *)
Lemma decode_line_yields_exactly_witness :
  Client.decode_line (rt := Reference.runtime)
    (Examples.dq "data: {'choices':[{'delta':{'content':'Hi'}}]}") = Some (JS.JStr "Hi").
Proof.
  apply (proj1 (decode_line_yields_exactly (rt := Reference.runtime) _)).
  split; [reflexivity |]. split; [discriminate |].
  eexists. split; [vm_compute; reflexivity |]. split; reflexivity.
Defined.

(* ================================================================== *)
(** * The handlers of server.js *)
(* ================================================================== *)

Section ServerFacts.
Import JS.
Context {rt : Runtime}.

(** ** How [POST /api/chat] runs *)

Lemma validateApiKey_configured (env : Server.Env) :
  Server.validateApiKey (Server.CONFIG env) = true <-> Spec.credential_configured env.
Proof.
  unfold Server.validateApiKey, Server.key_truthy, Spec.credential_configured. simpl.
  destruct (Server.env_GROQ_API_KEY env) as [key |].
  - destruct (String.eqb_spec key ""); simpl; split.
    + discriminate.
    + intros (k & [= <-] & Hk). contradiction.
    + intros _. now exists key.
    + reflexivity.
  - simpl. split; [discriminate | intros (k & Hk & _); discriminate].
Qed.

(** A validation that did not pass carries one of the four messages. *)
Lemma validation_messages (body : JSValue) (v : Server.Validation) :
  Server.validateChatRequest body = Normal v ->
  Server.valid v = false ->
  exists violation, v = Server.invalid (Spec.violation_message violation).
Proof.
  unfold Server.validateChatRequest. intros Hv Hvalid.
  destruct (Get body "messages") as [messages | e]; [| discriminate]. cbn [bind] in Hv.
  destruct (Get body "model") as [model | e]; [| discriminate]. cbn [bind] in Hv.
  destruct (Get body "temperature") as [temperature | e]; [| discriminate]. cbn [bind] in Hv.
  destruct (Get body "max_tokens") as [max_tokens | e]; [| discriminate]. cbn [bind] in Hv.
  destruct (_ || _ || _) in Hv.
  { injection Hv as <-. now exists Spec.MissingMessages. }
  destruct (Server.some _ _) as [bad | e]; [| discriminate]. cbn [bind] in Hv.
  destruct bad.
  { injection Hv as <-. now exists Spec.MalformedMessage. }
  destruct (_ && _) in Hv.
  { injection Hv as <-. now exists Spec.TemperatureOutOfRange. }
  destruct (_ && _) in Hv.
  { injection Hv as <-. now exists Spec.MaxTokensOutOfRange. }
  injection Hv as <-. discriminate.
Qed.

(** A body that passes validation is an object whose [messages] is a
    non-empty array. *)
Lemma valid_body_shape (body : JSValue) (v : Server.Validation) :
  Server.validateChatRequest body = Normal v ->
  Server.valid v = true ->
  exists props items,
    body = JObj props /\ lookup "messages" props = JArr items /\ items <> [].
Proof.
  unfold Server.validateChatRequest. intros Hv Hvalid.
  assert (Hmessages : exists items, Spec.field "messages" body = JArr items /\ items <> []).
  { unfold Spec.field.
    destruct (Get body "messages") as [messages | e]; [| discriminate]. cbn [bind] in Hv.
    destruct (Get body "model") as [model | e]; [| discriminate]. cbn [bind] in Hv.
    destruct (Get body "temperature") as [temperature | e]; [| discriminate].
    cbn [bind] in Hv.
    destruct (Get body "max_tokens") as [max_tokens | e]; [| discriminate].
    cbn [bind] in Hv.
    destruct messages as [| | b | n | str | items | ps];
      try (cbn [isArray negb] in Hv; rewrite orb_true_r in Hv; cbn [orb] in Hv;
           injection Hv as <-; discriminate).
    destruct items as [| item items].
    - simpl in Hv. injection Hv as <-. discriminate.
    - exists (item :: items). split; [reflexivity | discriminate]. }
  destruct Hmessages as (items & Hfield & Hne).
  destruct body as [| | b | n | str | elements | props];
    try (simpl in Hv; discriminate);
    try (unfold Spec.field in Hfield; simpl in Hfield; discriminate).
  exists props, items. auto.
Qed.

Lemma default_to_idem (d v : JSValue) :
  Server.default_to d (Server.default_to d v) = Server.default_to d v.
Proof. destruct v; try reflexivity. destruct d; reflexivity. Qed.

(** Past the two gates the handler dispatches exactly one request and answers
    from what comes back. *)
Lemma chat_dispatches (env : Server.Env) (fetch : Server.FetchRequest -> Server.FetchOutcome)
    (props : list (string * JSValue)) (items : list JSValue) (v : Server.Validation) :
  Server.validateApiKey (Server.CONFIG env) = true ->
  Server.validateChatRequest (JObj props) = Normal v ->
  Server.valid v = true ->
  lookup "messages" props = JArr items ->
  Server.chat env fetch (JObj props) =
  (match fetch (Spec.request_for env props items) with
   | Server.Rejected => Server.Json 500 Server.UNEXPECTED
   | Server.Resolved response =>
       if negb (Server.response_ok response)
       then try_catch (Server.upstream_error response)
                      (fun _ => Server.Json 500 Server.UNEXPECTED)
       else if ToBoolean (Spec.or_default (JBool false) (lookup "stream" props))
       then Server.stream_loop (Server.chunks response) (Server.read_fails response) []
       else try_catch (Server.aggregate response)
                      (fun _ => Server.Json 500 Server.UNEXPECTED)
   end,
   [Spec.request_for env props items]).
Proof.
  intros Hkey Hv Hvalid Hitems. unfold Server.chat.
  rewrite Hkey, Hv, Hvalid. cbn [negb Get bind]. rewrite Hitems.
  remember (lookup "model" props) as model.
  remember (lookup "temperature" props) as temperature.
  remember (lookup "max_tokens" props) as max_tokens.
  remember (lookup "stream" props) as stream.
  unfold Server.sendRequest, Spec.request_for.
  rewrite <- Heqmodel, <- Heqtemperature, <- Heqmax_tokens, <- Heqstream.
  simpl. rewrite default_to_idem. change Server.default_to with Spec.or_default.
  destruct (fetch _) as [| response]; cbn [bind try_catch].
  - reflexivity.
  - destruct (negb (Server.response_ok response)); [reflexivity |].
    destruct (ToBoolean _); reflexivity.
Qed.

(** Before the gates are passed, nothing is sent upstream. *)
Lemma chat_calls (env : Server.Env) (fetch : Server.FetchRequest -> Server.FetchOutcome)
    (body : JSValue) (req : Server.FetchRequest) :
  In req (snd (Server.chat env fetch body)) ->
  Server.validateApiKey (Server.CONFIG env) = true
  /\ exists props items v,
       body = JObj props
       /\ lookup "messages" props = JArr items
       /\ Server.validateChatRequest body = Normal v
       /\ Server.valid v = true
       /\ req = Spec.request_for env props items.
Proof.
  intros Hin.
  destruct (Server.validateApiKey (Server.CONFIG env)) eqn:Hkey.
  2:{ unfold Server.chat in Hin. rewrite Hkey in Hin. destruct Hin. }
  split; [reflexivity |].
  destruct (Server.validateChatRequest body) as [v | e] eqn:Hv.
  2:{ unfold Server.chat in Hin. rewrite Hkey, Hv in Hin. destruct Hin. }
  destruct (Server.valid v) eqn:Hvalid.
  2:{ unfold Server.chat in Hin. rewrite Hkey, Hv, Hvalid in Hin. destruct Hin. }
  destruct (valid_body_shape body v Hv Hvalid) as (props & items & -> & Hitems & _).
  rewrite (chat_dispatches env fetch props items v Hkey Hv Hvalid Hitems) in Hin.
  destruct Hin as [<- | []].
  exists props, items, v. auto.
Qed.

(** What the handler answers once a request went upstream. *)
Lemma chat_answer (env : Server.Env) (fetch : Server.FetchRequest -> Server.FetchOutcome)
    (body : JSValue) (req : Server.FetchRequest) :
  In req (snd (Server.chat env fetch body)) ->
  exists props items,
    body = JObj props
    /\ lookup "messages" props = JArr items
    /\ req = Spec.request_for env props items
    /\ Server.chat env fetch body =
       (match fetch req with
        | Server.Rejected => Server.Json 500 Server.UNEXPECTED
        | Server.Resolved response =>
            if negb (Server.response_ok response)
            then try_catch (Server.upstream_error response)
                           (fun _ => Server.Json 500 Server.UNEXPECTED)
            else if ToBoolean (Spec.or_default (JBool false) (lookup "stream" props))
            then Server.stream_loop (Server.chunks response) (Server.read_fails response) []
            else try_catch (Server.aggregate response)
                           (fun _ => Server.Json 500 Server.UNEXPECTED)
        end,
        [req]).
Proof.
  intros Hin. apply chat_calls in Hin.
  destruct Hin as (Hkey & props & items & v & -> & Hitems & Hv & Hvalid & ->).
  exists props, items. repeat split; try assumption.
  now apply (chat_dispatches env fetch props items v).
Qed.

Lemma chat_without_key (env : Server.Env) (fetch : Server.FetchRequest -> Server.FetchOutcome)
    (body : JSValue) :
  Server.validateApiKey (Server.CONFIG env) = false ->
  Server.chat env fetch body =
  (Server.Json 500 (JObj [("error", JStr "Server configuration error.")]), []).
Proof. intros Hkey. unfold Server.chat. now rewrite Hkey. Qed.

Lemma chat_invalid (env : Server.Env) (fetch : Server.FetchRequest -> Server.FetchOutcome)
    (body : JSValue) (msg : string) :
  Server.validateApiKey (Server.CONFIG env) = true ->
  Server.validateChatRequest body = Normal (Server.invalid msg) ->
  Server.chat env fetch body = (Server.Json 400 (JObj [("error", JStr msg)]), []).
Proof. intros Hkey Hv. unfold Server.chat. now rewrite Hkey, Hv. Qed.

(** ** The credential gate *)

(** C7. Without an upstream credential [POST /api/chat] answers 500 with
    [Server configuration error.] and sends nothing upstream, and
    [GET /api/health] answers 503 with status [degraded] and
    [apiConfigured: false]; with a credential [GET /api/health] answers 200
    with status [ok] and [apiConfigured: true]. *)
Theorem credential_gate (env : Server.Env) (fetch : Server.FetchRequest -> Server.FetchOutcome)
    (body : JSValue) (now : string) :
  (~ Spec.credential_configured env ->
     Server.chat env fetch body =
       (Server.Json 500 (JObj [("error", JStr "Server configuration error.")]), [])
     /\ Server.health env now =
        Server.Json 503
          (JObj [("status", JStr "degraded");
                 ("timestamp", JStr now);
                 ("environment", JStr (Server.NODE_ENV (Server.CONFIG env)));
                 ("apiConfigured", JBool false)]))
  /\ (Spec.credential_configured env ->
        Server.health env now =
        Server.Json 200
          (JObj [("status", JStr "ok");
                 ("timestamp", JStr now);
                 ("environment", JStr (Server.NODE_ENV (Server.CONFIG env)));
                 ("apiConfigured", JBool true)])).
Proof.
  pose proof (validateApiKey_configured env) as Hkey.
  destruct (Server.validateApiKey (Server.CONFIG env)) eqn:E; split.
  - intros Hno. exfalso. apply Hno, Hkey. reflexivity.
  - intros _. unfold Server.health. rewrite E.
    unfold Server.validateApiKey in E.
    destruct (Server.key_truthy _); [reflexivity | discriminate].
  - intros _. split; [now apply chat_without_key |].
    unfold Server.health. rewrite E.
    unfold Server.validateApiKey in E.
    destruct (Server.key_truthy _); [discriminate | reflexivity].
  - intros Hyes. apply Hkey in Hyes. discriminate.
Qed.

(** ** Rejected requests *)

(** A body whose [messages] is the empty array is refused for its messages. *)
Lemma empty_messages_refused (body : JSValue) :
  Spec.field "messages" body = JArr [] ->
  Server.validateChatRequest body = Normal (Server.invalid Server.MSG_MESSAGES).
Proof.
  intros Hempty.
  destruct body as [| | b | n | str | elements | props];
    try (cbn in Hempty; discriminate).
  unfold Spec.field in Hempty. cbn [Get] in Hempty.
  unfold Server.validateChatRequest. cbn [Get bind]. rewrite Hempty. reflexivity.
Qed.

(** C6. With the upstream credential configured (the precondition of the
    endpoint; C7 is the case without it), every request body that fails
    validation is answered 400 with the violation message and nothing is
    sent upstream.  A body with [messages: []] fails validation with the
    missing-messages error, and is answered so. *)
Theorem invalid_body_rejected (env : Server.Env)
    (fetch : Server.FetchRequest -> Server.FetchOutcome) (body : JSValue) :
  Spec.credential_configured env ->
  (forall v,
      Server.validateChatRequest body = Normal v ->
      Server.valid v = false ->
      exists violation,
        Server.error v = Some (Spec.violation_message violation)
        /\ Server.chat env fetch body
           = (Server.Json 400 (JObj [("error", JStr (Spec.violation_message violation))]),
              []))
  /\ (Spec.field "messages" body = JArr [] ->
        Server.validateChatRequest body
        = Normal (Server.invalid (Spec.violation_message Spec.MissingMessages))
        /\ Server.chat env fetch body
           = (Server.Json 400
                (JObj [("error", JStr "Messages array is required and cannot be empty")]),
              [])).
Proof.
  intros Hkey. apply validateApiKey_configured in Hkey. split.
  - intros v Hv Hvalid.
    destruct (validation_messages body v Hv Hvalid) as [violation ->].
    exists violation. split; [reflexivity |].
    now apply chat_invalid.
  - intros Hempty. apply empty_messages_refused in Hempty.
    split; [exact Hempty |].
    now apply (chat_invalid env fetch body Server.MSG_MESSAGES).
Qed.

(** ** The upstream request *)

(** C8. Every request dispatched upstream carries the fixed system message
    first, followed by the caller's messages in their order; the first
    message does not depend on the request body. *)
Theorem system_message_first (env : Server.Env)
    (fetch : Server.FetchRequest -> Server.FetchOutcome)
    (body : JSValue) (req : Server.FetchRequest) :
  In req (snd (Server.chat env fetch body)) ->
  exists items,
    Spec.field "messages" body = JArr items
    /\ Spec.field "messages" (Server.body req)
       = JArr (JObj [("role", JStr "system"); ("content", JStr Server.COMPANY_CONTEXT)]
               :: items).
Proof.
  intros Hin. apply chat_calls in Hin.
  destruct Hin as (_ & props & items & v & -> & Hitems & _ & _ & ->).
  exists items. split; [exact Hitems | reflexivity].
Qed.


(** ** Upstream errors *)

(** C9, as amended. When the upstream answers a dispatched request with a
    non-success status and a structured error body (a body that parses as
    JSON, to anything but [null]), the relay answers with the upstream's
    status code and an error whose message is the [error.message] of that
    body, or the generic ['AI service error'] when that message is absent.
    When the body is not JSON, or is [null], the relay answers 500 with
    [An unexpected error occurred. Please try again.] and the upstream's
    status is not passed on. *)
Theorem upstream_error_relayed (env : Server.Env)
    (fetch : Server.FetchRequest -> Server.FetchOutcome)
    (body : JSValue) (req : Server.FetchRequest)
    (response : Server.UpstreamResponse) :
  In req (snd (Server.chat env fetch body)) ->
  fetch req = Server.Resolved response ->
  (Server.status response < 200 \/ 299 < Server.status response)%Z ->
  (forall errorData,
      Server.json response = Normal errorData ->
      Spec.is_present errorData = true ->
      let message := Spec.field "message" (Spec.field "error" errorData) in
      fst (Server.chat env fetch body) = Server.Json (Server.status response)
        (JObj [("error", if Spec.present_and_nonempty message then message
                         else JStr "AI service error")])
      /\ (message = JUndefined ->
            fst (Server.chat env fetch body) = Server.Json (Server.status response)
              (JObj [("error", JStr "AI service error")])))
  /\ ((exists e, Server.json response = Throw e)
      \/ (exists errorData,
            Server.json response = Normal errorData
            /\ Spec.is_present errorData = false) ->
      fst (Server.chat env fetch body)
      = Server.Json 500
          (JObj [("error", JStr "An unexpected error occurred. Please try again.")])).
Proof.
  intros Hin Hfetch Hstatus.
  destruct (chat_answer env fetch body req Hin) as (props & items & _ & _ & _ & ->).
  rewrite Hfetch. cbn [fst].
  assert (Hok : Server.response_ok response = false).
  { unfold Server.response_ok. apply andb_false_iff.
    destruct Hstatus; [left | right]; apply Z.leb_gt; assumption. }
  rewrite Hok. cbn [negb]. unfold Server.upstream_error. split.
  - intros errorData Hjson Hpresent. cbv zeta. rewrite Hjson. cbn [bind].
    assert (Hget : Get errorData "error" = Normal (Spec.field "error" errorData)).
    { destruct (Get_cases errorData "error") as [H | [[e He] _]]; [exact H |].
      destruct errorData; discriminate. }
    rewrite Hget. cbn [bind]. rewrite OptGet_field. cbn [bind try_catch].
    unfold Server.error_body, js_or. rewrite <- present_and_nonempty_ToBoolean.
    split; [reflexivity |].
    intros ->. reflexivity.
  - intros [[e ->] | (errorData & -> & Habsent)]; [reflexivity |].
    destruct errorData; try discriminate; reflexivity.
Qed.

(** ** The validator against the rules *)

Lemma num_lt_le (a b : Number) :
  a <> NaN -> b <> NaN -> num_lt a b = negb (num_le b a).
Proof. destruct a, b; intros Ha Hb; try reflexivity; contradiction. Qed.

Lemma zero_within (n : Number) (lo hi : Z) :
  num_is_zero n = true -> (lo <= 0 <= hi)%Z ->
  num_le (num lo) n = true /\ num_le n (num hi) = true.
Proof.
  destruct n as [q | | |]; try discriminate. simpl. intros Hzero [Hlo Hhi].
  apply Qeq_bool_iff in Hzero. split; apply Qle_bool_iff; rewrite Hzero.
  - change 0%Q with (inject_Z 0). now rewrite <- Zle_Qle.
  - change 0%Q with (inject_Z 0). now rewrite <- Zle_Qle.
Qed.

(** The guard [v && (v < lo || v > hi)] against "if present, within range". *)
Lemma range_guard (v : JSValue) (lo hi : Z) :
  Spec.number_or_absent v = true ->
  v = JUndefined \/ ToBoolean v = true \/ (lo <= 0 <= hi)%Z ->
  ToBoolean v && (js_lt v (num lo) || js_gt v (num hi))
  = negb (Spec.in_range_if_present lo hi v).
Proof.
  intros Hshape Hcase.
  destruct v as [| | b | n | str | items | props]; try discriminate; [reflexivity |].
  assert (Hn : n <> NaN) by (destruct n; simpl in Hshape; congruence).
  unfold js_lt, js_gt, num_gt. cbn [ToNumber Spec.in_range_if_present Spec.within].
  rewrite !num_lt_le by (assumption || discriminate).
  rewrite negb_andb.
  destruct (ToBoolean (JNum n)) eqn:Htruthy; [reflexivity |].
  destruct Hcase as [Habsent | [Htrue | Hrange]]; try discriminate.
  assert (Hzero : num_is_zero n = true).
  { destruct n; simpl in Htruthy; try discriminate; try contradiction.
    now apply negb_false_iff in Htruthy. }
  destruct (zero_within n lo hi Hzero Hrange) as [-> ->]. reflexivity.
Qed.

Lemma lacks_role_or_content_present (msg : JSValue) :
  Spec.is_present msg = true ->
  Server.lacks_role_or_content msg = Normal (negb (Spec.well_formed_message msg)).
Proof.
  intros Hpresent. unfold Server.lacks_role_or_content, Spec.well_formed_message.
  rewrite !present_and_nonempty_ToBoolean.
  assert (Hget : forall key, Get msg key = Normal (Spec.field key msg)).
  { intros key. destruct (Get_cases msg key) as [H | [[e He] _]]; [exact H |].
    destruct msg; discriminate. }
  rewrite !Hget. cbn [bind].
  destruct (ToBoolean (Spec.field "role" msg)); reflexivity.
Qed.

Lemma some_lacks_role_or_content (items : list JSValue) :
  forallb Spec.is_present items = true ->
  Server.some Server.lacks_role_or_content items
  = Normal (negb (forallb Spec.well_formed_message items)).
Proof.
  induction items as [| msg items IH]; intros Hpresent; [reflexivity |].
  cbn [forallb] in *. apply andb_true_iff in Hpresent. destruct Hpresent as [Hmsg Hrest].
  cbn [Server.some]. rewrite (lacks_role_or_content_present msg Hmsg). cbn [bind].
  destruct (Spec.well_formed_message msg); cbn [negb andb]; [now apply IH | reflexivity].
Qed.

(** On the bodies of the data model whose [max_tokens] is not [0], the
    validator returns the violation of the first rule that fails, in the order
    of section 4.1, and passes the body when none does. *)
Lemma validateChatRequest_first_violation (body : JSValue) :
  Spec.request_shaped body = true ->
  Spec.field "max_tokens" body = JUndefined
    \/ ToBoolean (Spec.field "max_tokens" body) = true ->
  Server.validateChatRequest body = Normal (Spec.report (Spec.first_violation body)).
Proof.
  intros Hshape Hmax.
  destruct body as [| | b | n | str | elements | props]; try discriminate.
  unfold Spec.request_shaped in Hshape.
  apply andb_true_iff in Hshape. destruct Hshape as [Hshape Hmaxshape].
  apply andb_true_iff in Hshape. destruct Hshape as [Hmessages Htemperature].
  unfold Server.validateChatRequest, Spec.first_violation,
    Spec.rule_messages, Spec.rule_each_message, Spec.rule_temperature, Spec.rule_max_tokens.
  unfold Spec.field in *. cbn [Get bind] in *.
  destruct (lookup "messages" props) as [| | b | n | str | items | ps];
    try (cbn [isArray negb]; rewrite orb_true_r; reflexivity).
  destruct items as [| item items]; [reflexivity |].
  cbn [ToBoolean isArray negb orb Server.array_items List.length Nat.eqb] in *.
  rewrite (some_lacks_role_or_content _ Hmessages). cbn [bind].
  destruct (forallb Spec.well_formed_message (item :: items)); cbn [negb]; [| reflexivity].
  rewrite (range_guard _ 0 2 Htemperature) by (right; right; lia).
  destruct (Spec.in_range_if_present 0 2 (lookup "temperature" props)); cbn [negb];
    [| reflexivity].
  rewrite (range_guard _ 1 4096 Hmaxshape) by (destruct Hmax; auto).
  destruct (Spec.in_range_if_present 1 4096 (lookup "max_tokens" props)); reflexivity.
Qed.

(** A temperature outside [0, 2] is rejected once rules 1 and 2 pass. *)
Lemma temperature_out_of_range_rejected (body : JSValue) :
  Spec.request_shaped body = true ->
  Spec.field "max_tokens" body = JUndefined
    \/ ToBoolean (Spec.field "max_tokens" body) = true ->
  Spec.rule_messages body = true ->
  Spec.rule_each_message body = true ->
  Spec.rule_temperature body = false ->
  Server.validateChatRequest body = Normal (Server.invalid Server.MSG_TEMPERATURE).
Proof.
  intros Hshape Hmax H1 H2 H3. rewrite validateChatRequest_first_violation by assumption.
  unfold Spec.first_violation. now rewrite H1, H2, H3.
Qed.

(** A [max_tokens] outside [1, 4096] other than [0] is rejected once rules 1
    to 3 pass. *)
Lemma max_tokens_out_of_range_rejected (body : JSValue) :
  Spec.request_shaped body = true ->
  ToBoolean (Spec.field "max_tokens" body) = true ->
  Spec.rule_messages body = true ->
  Spec.rule_each_message body = true ->
  Spec.rule_temperature body = true ->
  Spec.rule_max_tokens body = false ->
  Server.validateChatRequest body = Normal (Server.invalid Server.MSG_MAX_TOKENS).
Proof.
  intros Hshape Hmax H1 H2 H3 H4. rewrite validateChatRequest_first_violation by auto.
  unfold Spec.first_violation. now rewrite H1, H2, H3, H4.
Qed.

(** ** The streaming relay *)

Lemma forward_lines_events (lines : list string) :
  Server.forward_lines lines = Spec.events_of lines.
Proof.
  unfold Spec.events_of, Spec.is_data_line.
  induction lines as [| line lines IH]; [reflexivity |].
  cbn [Server.forward_lines filter]. destruct (startsWith line "data: "); cbn [map];
    now rewrite IH.
Qed.

Lemma events_of_app (a b : list string) :
  Spec.events_of (a ++ b) = Spec.events_of a ++ Spec.events_of b.
Proof. unfold Spec.events_of. now rewrite filter_app, map_app. Qed.

(** The streaming branch in closed form. *)
Lemma stream_loop_eq (pending : list string) (fails : bool) : forall written,
  Server.stream_loop pending fails written =
  let all := written ++ Spec.events_per_chunk pending in
  if fails then
    if negb (Server.headersSent all)
    then Server.Json 500 (JObj [("error", JStr "Streaming failed")])
    else Server.EventStream Server.SSE_HEADERS all false
  else Server.EventStream Server.SSE_HEADERS (all ++ [Server.DONE_FRAME]) true.
Proof.
  induction pending as [| chunk rest IH]; intros written; cbn [Server.stream_loop].
  - cbv zeta. cbn [Spec.events_per_chunk flat_map]. rewrite app_nil_r. reflexivity.
  - rewrite IH. cbv zeta. cbn [Spec.events_per_chunk flat_map].
    rewrite forward_lines_events, <- app_assoc. reflexivity.
Qed.

(** When every chunk but the last ends at a line break, the events forwarded
    chunk by chunk are the events of the lines of the whole upstream text. *)
Lemma events_per_chunk_aligned (chunks : list string) :
  Forall Spec.line_aligned (removelast chunks) ->
  Spec.events_per_chunk chunks = Spec.events_of (split_lines (Spec.stream_text chunks)).
Proof.
  induction chunks as [| chunk rest IH]; intros Haligned; [reflexivity |].
  cbn [Spec.events_per_chunk flat_map Spec.stream_text].
  fold (Spec.events_per_chunk rest).
  destruct rest as [| next rest'].
  - cbn [Spec.events_per_chunk flat_map Spec.stream_text].
    now rewrite app_nil_r, string_app_empty_r.
  - change (removelast (chunk :: next :: rest'))
      with (chunk :: removelast (next :: rest')) in Haligned.
    inversion Haligned as [| ? ? Hchunk Hrest]; subst.
    rewrite (IH Hrest).
    destruct Hchunk as [-> | [text ->]]; [reflexivity |].
    unfold nl, str_of_char. rewrite string_app_assoc. cbn [append].
    rewrite !split_lines_break, !events_of_app. cbn [split_lines].
    change (Spec.events_of [""]) with (@nil string). now rewrite app_nil_r.
Qed.

(** X2. What the streaming branch does for every streaming request whose upstream
    call succeeds: it splits each upstream chunk at its line breaks and writes
    every part that begins with [data: ] followed by a blank line, in arrival
    order; when the upstream stream is exhausted it writes these events, then
    [data: [DONE]] and a blank line, and ends the response; when a read fails
    it writes no sentinel (and answers 500 if nothing was written).  The
    events are those of the upstream lines when every chunk but the last ends
    at a line break. *)
Lemma relay_forwards_chunk_lines (env : Server.Env)
    (fetch : Server.FetchRequest -> Server.FetchOutcome)
    (body : JSValue) (req : Server.FetchRequest) (response : Server.UpstreamResponse) :
  In req (snd (Server.chat env fetch body)) ->
  ToBoolean (Spec.field "stream" body) = true ->
  fetch req = Server.Resolved response ->
  (200 <= Server.status response <= 299)%Z ->
  let forwarded := Spec.events_per_chunk (Server.chunks response) in
  (Server.read_fails response = false ->
     fst (Server.chat env fetch body) =
     Server.EventStream Server.SSE_HEADERS (forwarded ++ [Server.frame "data: [DONE]"]) true)
  /\ (Forall Spec.line_aligned (removelast (Server.chunks response)) ->
        forwarded =
        Spec.events_of (split_lines (Spec.stream_text (Server.chunks response))))
  /\ (Server.read_fails response = true ->
        (forwarded = [] ->
           fst (Server.chat env fetch body) =
           Server.Json 500 (JObj [("error", JStr "Streaming failed")]))
        /\ (forwarded <> [] ->
              exists ended,
                fst (Server.chat env fetch body) =
                Server.EventStream Server.SSE_HEADERS forwarded ended)).
Proof.
  intros Hin Hstream Hfetch [Hlo Hhi] forwarded.
  destruct (chat_answer env fetch body req Hin) as (props & items & -> & _ & _ & ->).
  rewrite Hfetch. cbn [fst].
  assert (Hok : Server.response_ok response = true).
  { unfold Server.response_ok. apply andb_true_iff. split; now apply Z.leb_le. }
  rewrite Hok. cbn [negb].
  unfold Spec.field in Hstream. cbn [Get] in Hstream.
  assert (Hs : ToBoolean (Spec.or_default (JBool false) (lookup "stream" props)) = true).
  { destruct (lookup "stream" props); try discriminate; exact Hstream. }
  rewrite Hs, stream_loop_eq. cbv zeta. cbn [app]. fold forwarded.
  split; [| split].
  - intros ->. reflexivity.
  - apply events_per_chunk_aligned.
  - intros ->. split.
    + intros Hnone. rewrite Hnone. reflexivity.
    + intros Hsome. exists false.
      destruct forwarded; [contradiction | reflexivity].
Qed.

End ServerFacts.

(* ================================================================== *)
(** * The handlers on concrete requests *)
(* ================================================================== *)

Section Runs.
Import JS.

(** C2. Two requests on which the relay does not do what is claimed.  (a) The
    upstream connection drops after one event was forwarded ([reader.read()]
    rejects): the [catch] logs and, the headers being sent, does nothing more,
    so the response is never ended.  (b) An upstream line [data: {'a':1}]
    (with ['] for the double quote) arrives cut in two chunks: the relay
    writes the first half as an event of its own and drops the second, so the
    event of the upstream line is never written. *)
Theorem relay_drops_end_and_cut_lines :
  let body := JObj [("messages", JArr [Examples.user_message]); ("stream", JBool true)] in
  let relay chunks fails :=
    fst (Server.chat (rt := Reference.runtime) Examples.env_with_key
           (Examples.always (Examples.upstream_stream chunks fails)) body) in
  let cut := [Examples.dq "data: {'a':"; (Examples.dq "1}" ++ nl)%string] in
  relay [("data: x" ++ nl)%string] true
    = Server.EventStream Server.SSE_HEADERS [Server.frame "data: x"] false
  /\ Spec.events_of (split_lines (Spec.stream_text cut))
     = [Server.frame (Examples.dq "data: {'a':1}")]
  /\ relay cut false
     = Server.EventStream Server.SSE_HEADERS
         [Server.frame (Examples.dq "data: {'a':"); Server.DONE_FRAME] true
  /\ relay cut false
     <> Server.EventStream Server.SSE_HEADERS
          (Spec.events_of (split_lines (Spec.stream_text cut)) ++ [Server.DONE_FRAME])
          true.
Proof. cbv zeta. repeat split; vm_compute; (reflexivity || discriminate). Qed.

(** C4. On [{messages: [{role, content}], max_tokens: 0}] rules 1 to 3 hold
    and rule 4 ([max_tokens], if present, within [1, 4096]) is the first one
    violated, yet [validateChatRequest] returns [{valid: true}]: the guard
    [max_tokens && ...] takes a present [0] for an absent value.  On
    [{messages: [null]}] rule 2 is the first one violated and the validator
    throws a [TypeError] instead of returning the violation. *)
Theorem validateChatRequest_misses_violated_rule :
  let body := JObj [("messages", JArr [Examples.user_message]);
                    ("max_tokens", JNum (num 0))] in
  let body' := JObj [("messages", JArr [JNull])] in
  Spec.first_violation body = Some Spec.MaxTokensOutOfRange
  /\ Server.validateChatRequest (rt := Reference.runtime) body = Normal Server.ok
  /\ Spec.first_violation body' = Some Spec.MalformedMessage
  /\ Server.validateChatRequest (rt := Reference.runtime) body' = Throw TypeError.
Proof. cbv zeta. repeat split; vm_compute; reflexivity. Qed.

(** C5. A present [max_tokens] of [0] violates [1 <= max_tokens <= 4096], is
    accepted by the validator, and is sent upstream as it is. *)
Theorem max_tokens_zero_is_accepted :
  let body := JObj [("messages", JArr [Examples.user_message]);
                    ("max_tokens", JNum (num 0))] in
  let fetch := Examples.always (Examples.upstream_error 400 (Normal (JObj []))) in
  Spec.within 1 4096 (Spec.field "max_tokens" body) = false
  /\ Spec.rule_max_tokens body = false
  /\ Server.validateChatRequest (rt := Reference.runtime) body = Normal Server.ok
  /\ (exists req,
        snd (Server.chat (rt := Reference.runtime) Examples.env_with_key fetch body) = [req]
        /\ Spec.field "max_tokens" (Server.body req) = JNum (num 0)).
Proof.
  cbv zeta. repeat split; try (vm_compute; reflexivity).
  eexists. split; vm_compute; reflexivity.
Qed.

(** ** The theorems at concrete requests *)

(** C7 without and with a credential. *)
Lemma credential_gate_witness :
  Server.chat (rt := Reference.runtime) Examples.env_without_key
    (Examples.always (Examples.upstream_stream [] false)) (JObj [])
  = (Server.Json 500 (JObj [("error", JStr "Server configuration error.")]), [])
  /\ Server.health Examples.env_without_key "2026-01-10T12:00:00.000Z"
     = Server.Json 503
         (JObj [("status", JStr "degraded");
                ("timestamp", JStr "2026-01-10T12:00:00.000Z");
                ("environment", JStr "development");
                ("apiConfigured", JBool false)])
  /\ Server.health Examples.env_with_key "2026-01-10T12:00:00.000Z"
     = Server.Json 200
         (JObj [("status", JStr "ok");
                ("timestamp", JStr "2026-01-10T12:00:00.000Z");
                ("environment", JStr "development");
                ("apiConfigured", JBool true)]).
Proof.
  destruct (credential_gate (rt := Reference.runtime) Examples.env_without_key
              (Examples.always (Examples.upstream_stream [] false)) (JObj [])
              "2026-01-10T12:00:00.000Z") as [Hno _].
  destruct (credential_gate (rt := Reference.runtime) Examples.env_with_key
              (Examples.always (Examples.upstream_stream [] false)) (JObj [])
              "2026-01-10T12:00:00.000Z") as [_ Hyes].
  destruct Hno as [Hchat Hhealth].
  { intros (key & Hkey & _). discriminate. }
  split; [exact Hchat |]. split; [exact Hhealth |].
  apply Hyes. exists "gsk_test". split; [reflexivity | discriminate].
Defined.

(** C6 at [messages: []]. *)
Lemma invalid_body_rejected_witness :
  Server.chat (rt := Reference.runtime) Examples.env_with_key
    (Examples.always (Examples.upstream_stream [] false))
    (JObj [("messages", JArr [])])
  = (Server.Json 400 (JObj [("error", JStr "Messages array is required and cannot be empty")]),
     []).
Proof.
  destruct (invalid_body_rejected (rt := Reference.runtime) Examples.env_with_key
              (Examples.always (Examples.upstream_stream [] false))
              (JObj [("messages", JArr [])])) as [_ Hempty].
  - exists "gsk_test". split; [reflexivity | discriminate].
  - apply Hempty. reflexivity.
Defined.

(** C8 at a one-message request. *)
Lemma system_message_first_witness :
  exists items,
    Spec.field "messages" (JObj [("messages", JArr [Examples.user_message])]) = JArr items
    /\ Spec.field "messages"
         (Server.body
            (Spec.request_for Examples.env_with_key
               [("messages", JArr [Examples.user_message])] [Examples.user_message]))
       = JArr (JObj [("role", JStr "system"); ("content", JStr Server.COMPANY_CONTEXT)]
               :: items).
Proof.
  apply (system_message_first (rt := Reference.runtime) Examples.env_with_key
           (Examples.always (Examples.upstream_stream [] false))).
  vm_compute. left. reflexivity.
Defined.


(** C9 as stated fails: an upstream 502 whose body is not JSON (the error
    page of a gateway) is a non-success status, the request was dispatched,
    and the answer is the generic 500, not the upstream's 502. *)
Lemma upstream_error_without_json_loses_status :
  let response := Examples.upstream_error 502 (Throw SyntaxError) in
  let body := JObj [("messages", JArr [Examples.user_message])] in
  let answer :=
    Server.chat (rt := Reference.runtime) Examples.env_with_key (Examples.always response)
      body in
  snd answer
    = [Spec.request_for Examples.env_with_key
         [("messages", JArr [Examples.user_message])] [Examples.user_message]]
  /\ Server.response_ok response = false
  /\ fst answer
     = Server.Json 500
         (JObj [("error", JStr "An unexpected error occurred. Please try again.")])
  /\ forall payload, fst answer <> Server.Json (Server.status response) payload.
Proof.
  cbv zeta. repeat split; try (vm_compute; reflexivity).
  intros payload. vm_compute. discriminate.
Qed.

(** C9, as amended, at an upstream 429 with a structured error body. *)
Lemma upstream_error_relayed_witness :
  fst (Server.chat (rt := Reference.runtime) Examples.env_with_key
         (Examples.always
            (Examples.upstream_error 429
               (Normal (JObj [("error", JObj [("message", JStr "Rate limit reached")])]))))
         (JObj [("messages", JArr [Examples.user_message])]))
  = Server.Json 429 (JObj [("error", JStr "Rate limit reached")]).
Proof.
  destruct (upstream_error_relayed (rt := Reference.runtime) Examples.env_with_key
              (Examples.always
                 (Examples.upstream_error 429
                    (Normal (JObj [("error",
                                    JObj [("message", JStr "Rate limit reached")])]))))
              (JObj [("messages", JArr [Examples.user_message])])
              (Spec.request_for Examples.env_with_key
                 [("messages", JArr [Examples.user_message])] [Examples.user_message])
              (Examples.upstream_error 429
                 (Normal (JObj [("error",
                                 JObj [("message", JStr "Rate limit reached")])]))))
    as [Hstructured _].
  - vm_compute. left. reflexivity.
  - reflexivity.
  - right. simpl. lia.
  - destruct (Hstructured
                (JObj [("error", JObj [("message", JStr "Rate limit reached")])])
                eq_refl eq_refl) as [Hanswer _].
    exact Hanswer.
Defined.

(** An upstream that delivers one frame and ends. *)
Lemma relay_forwards_one_frame :
  fst (Server.chat (rt := Reference.runtime) Examples.env_with_key
         (Examples.always (Examples.upstream_stream [Examples.hi_frame] false))
         (JObj [("messages", JArr [Examples.user_message]); ("stream", JBool true)]))
  = Server.EventStream Server.SSE_HEADERS
      [Server.frame (Examples.dq "data: {'choices':[{'delta':{'content':'Hi'}}]}");
       Server.frame "data: [DONE]"] true.
Proof.
  destruct (relay_forwards_chunk_lines (rt := Reference.runtime) Examples.env_with_key
              (Examples.always (Examples.upstream_stream [Examples.hi_frame] false))
              (JObj [("messages", JArr [Examples.user_message]); ("stream", JBool true)])
              (Spec.request_for Examples.env_with_key
                 [("messages", JArr [Examples.user_message]); ("stream", JBool true)]
                 [Examples.user_message])
              (Examples.upstream_stream [Examples.hi_frame] false)) as (Hdone & _ & _).
  - vm_compute. left. reflexivity.
  - reflexivity.
  - reflexivity.
  - simpl. lia.
  - rewrite (Hdone eq_refl). vm_compute. reflexivity.
Defined.

End Runs.

(* ================================================================== *)
(** * More on POST /api/chat *)
(* ================================================================== *)

Section ChatFacts.
Import JS.
Context {rt : Runtime}.

Lemma upstream_error_is_json (response : Server.UpstreamResponse) :
  exists code payload,
    try_catch (Server.upstream_error response) (fun _ => Server.Json 500 Server.UNEXPECTED)
    = Server.Json code payload.
Proof.
  unfold Server.upstream_error.
  destruct (Server.json response) as [errorData | e]; cbn [bind try_catch]; [| eauto].
  destruct (Get errorData "error") as [err | e]; cbn [bind try_catch]; [| eauto].
  rewrite OptGet_field. cbn [bind try_catch]. eauto.
Qed.

Lemma aggregate_is_json (response : Server.UpstreamResponse) :
  exists code payload,
    try_catch (Server.aggregate response) (fun _ => Server.Json 500 Server.UNEXPECTED)
    = Server.Json code payload.
Proof.
  unfold Server.aggregate.
  destruct (Server.json response) as [data | e]; cbn [bind try_catch]; [| eauto].
  destruct (Get data "choices") as [choices | e]; cbn [bind try_catch]; [| eauto].
  destruct (GetIndex0 choices) as [first | e]; cbn [bind try_catch]; [| eauto].
  rewrite OptGet_field. cbn [bind]. rewrite OptGet_field. cbn [bind].
  destruct (Get data "model") as [model | e]; cbn [bind try_catch]; [| eauto].
  destruct (Get data "usage") as [usage | e]; cbn [bind try_catch]; eauto.
Qed.

(** With nothing sent upstream the answer is a JSON answer, or none at all. *)
Lemma chat_undispatched (env : Server.Env) (fetch : Server.FetchRequest -> Server.FetchOutcome)
    (body : JSValue) :
  snd (Server.chat env fetch body) = [] ->
  (exists code payload, fst (Server.chat env fetch body) = Server.Json code payload)
  \/ fst (Server.chat env fetch body) = Server.Unanswered.
Proof.
  intros Hcalls.
  destruct (Server.validateApiKey (Server.CONFIG env)) eqn:Hkey.
  2:{ rewrite (chat_without_key env fetch body Hkey). left. cbn [fst]. eauto. }
  destruct (Server.validateChatRequest body) as [v | e] eqn:Hv.
  2:{ unfold Server.chat. rewrite Hkey, Hv. now right. }
  destruct (Server.valid v) eqn:Hvalid.
  2:{ unfold Server.chat. rewrite Hkey, Hv, Hvalid. left. cbn [negb fst]. eauto. }
  destruct (valid_body_shape body v Hv Hvalid) as (props & items & -> & Hitems & _).
  rewrite (chat_dispatches env fetch props items v Hkey Hv Hvalid Hitems) in Hcalls.
  discriminate.
Qed.

Lemma calls_nil_or_in (env : Server.Env) (fetch : Server.FetchRequest -> Server.FetchOutcome)
    (body : JSValue) :
  snd (Server.chat env fetch body) = []
  \/ exists req, In req (snd (Server.chat env fetch body)).
Proof.
  destruct (snd (Server.chat env fetch body)) as [| req rest]; [now left |].
  right. exists req. now left.
Qed.

Lemma split_lines_parts (s : string) :
  Forall (fun part => split_lines part = [part]) (split_lines s).
Proof.
  induction s as [| c s IH]; cbn [split_lines].
  - constructor; [reflexivity | constructor].
  - destruct (Ascii.eqb c LF) eqn:Ec.
    + constructor; [reflexivity | exact IH].
    + destruct (split_lines s) as [| part parts]; [repeat constructor; simpl; now rewrite Ec |].
      inversion IH as [| ? ? Hpart Hparts]; subst.
      constructor; [| exact Hparts].
      cbn [split_lines]. now rewrite Ec, Hpart.
Qed.

Lemma events_of_are_events (lines : list string) :
  Forall (fun part => split_lines part = [part]) lines ->
  Forall Framing.is_event (Spec.events_of lines).
Proof.
  unfold Spec.events_of, Spec.is_data_line.
  induction 1 as [| line lines Hline Hlines IH]; cbn [filter map]; [constructor |].
  destruct (startsWith line "data: ") eqn:Hdata; [| exact IH].
  cbn [map]. constructor; [| exact IH].
  exists line. auto.
Qed.

Lemma events_per_chunk_are_events (chunks : list string) :
  Forall Framing.is_event (Spec.events_per_chunk chunks).
Proof.
  unfold Spec.events_per_chunk.
  induction chunks as [| chunk rest IH]; cbn [flat_map]; [constructor |].
  apply Forall_app. split; [| exact IH].
  apply events_of_are_events, split_lines_parts.
Qed.

Lemma done_is_event : Framing.is_event Server.DONE_FRAME.
Proof. exists "data: [DONE]". repeat split. Qed.

(** X1. The relay never writes anything but whole SSE events: whatever the
    upstream delivers, and whether or not a read fails, every [res.write] of
    a streamed answer is a [data: ] line without line break followed by a
    blank line, under the four SSE headers; an answer that was ended ends
    with the [data: [DONE]] event, and one left open holds at least one
    event. *)
Theorem relay_writes_whole_events (env : Server.Env)
    (fetch : Server.FetchRequest -> Server.FetchOutcome) (body : JSValue)
    (hdrs : list (string * string)) (writes : list string) (ended : bool) :
  fst (Server.chat env fetch body) = Server.EventStream hdrs writes ended ->
  hdrs = [("Content-Type", "text/event-stream"); ("Cache-Control", "no-cache");
          ("Connection", "keep-alive"); ("X-Accel-Buffering", "no")]
  /\ Forall Framing.is_event writes
  /\ (ended = true -> exists events, writes = events ++ [Server.frame "data: [DONE]"])
  /\ (ended = false -> writes <> []).
Proof.
  intros Hanswer.
  destruct (calls_nil_or_in env fetch body) as [Hnone | [req Hin]].
  { destruct (chat_undispatched env fetch body Hnone) as [(code & payload & H) | H];
      rewrite H in Hanswer; discriminate. }
  destruct (chat_answer env fetch body req Hin) as (props & items & _ & _ & _ & Hchat).
  rewrite Hchat in Hanswer. cbn [fst] in Hanswer.
  destruct (fetch req) as [| response]; [discriminate |].
  destruct (negb (Server.response_ok response)).
  { destruct (upstream_error_is_json response) as (code & payload & H).
    rewrite H in Hanswer. discriminate. }
  destruct (ToBoolean _).
  2:{ destruct (aggregate_is_json response) as (code & payload & H).
      rewrite H in Hanswer. discriminate. }
  rewrite stream_loop_eq in Hanswer. cbv zeta in Hanswer. cbn [app] in Hanswer.
  pose proof (events_per_chunk_are_events (Server.chunks response)) as Hevents.
  destruct (Server.read_fails response).
  - destruct (Spec.events_per_chunk (Server.chunks response)) as [| w ws] eqn:E;
      cbn [Server.headersSent negb] in Hanswer; [discriminate |].
    injection Hanswer as <- <- <-.
    repeat split; [exact Hevents | discriminate | discriminate].
  - injection Hanswer as <- <- <-.
    repeat split.
    + apply Forall_app. split; [exact Hevents |].
      constructor; [exact done_is_event | constructor].
    + intros _. eexists. reflexivity.
    + discriminate.
Qed.

(** X8. Every request makes at most one upstream call (there is no retry), and
    where that call goes is fixed by the server: a POST to the Groq chat
    completions URL that carries the server's own key as bearer token, with
    [top_p] set to 1. *)
Theorem upstream_call_is_server_controlled (env : Server.Env)
    (fetch : Server.FetchRequest -> Server.FetchOutcome) (body : JSValue) :
  (List.length (snd (Server.chat env fetch body)) <= 1)%nat
  /\ forall req,
       In req (snd (Server.chat env fetch body)) ->
       Server.url req = "https://api.groq.com/openai/v1/chat/completions"
       /\ Server.method req = "POST"
       /\ Spec.field "top_p" (Server.body req) = JNum (num 1)
       /\ exists key,
            Server.env_GROQ_API_KEY env = Some key /\ key <> ""
            /\ Server.headers req
               = [("Authorization", ("Bearer " ++ key)%string);
                  ("Content-Type", "application/json")].
Proof.
  split.
  - destruct (calls_nil_or_in env fetch body) as [-> | [req Hin]]; [simpl; lia |].
    destruct (chat_answer env fetch body req Hin) as (props & items & _ & _ & _ & ->).
    simpl. lia.
  - intros req Hin. apply chat_calls in Hin.
    destruct Hin as (Hkey & props & items & v & _ & _ & _ & _ & ->).
    apply validateApiKey_configured in Hkey. destruct Hkey as (key & Hkey & Hne).
    repeat split. exists key. repeat split; try assumption.
    cbn [Server.headers Spec.request_for]. now rewrite Hkey.
Qed.

(** X9. When the upstream cannot be reached, or answers a non-success status
    with a body that is not JSON or is [null], the answer is the generic
    500; the upstream status is not passed on. *)
Theorem upstream_failure_answers_500 (env : Server.Env)
    (fetch : Server.FetchRequest -> Server.FetchOutcome) (body : JSValue)
    (req : Server.FetchRequest) :
  In req (snd (Server.chat env fetch body)) ->
  (fetch req = Server.Rejected
   \/ exists response,
        fetch req = Server.Resolved response
        /\ (Server.status response < 200 \/ 299 < Server.status response)%Z
        /\ ((exists e, Server.json response = Throw e)
            \/ Server.json response = Normal JNull)) ->
  Server.chat env fetch body
  = (Server.Json 500
       (JObj [("error", JStr "An unexpected error occurred. Please try again.")]),
     [req]).
Proof.
  intros Hin Hfail.
  destruct (chat_answer env fetch body req Hin) as (props & items & _ & _ & _ & ->).
  destruct Hfail as [-> | (response & -> & Hstatus & Hjson)]; [reflexivity |].
  assert (Hok : Server.response_ok response = false).
  { unfold Server.response_ok. apply andb_false_iff.
    destruct Hstatus; [left | right]; apply Z.leb_gt; assumption. }
  rewrite Hok. cbn [negb]. unfold Server.upstream_error.
  destruct Hjson as [[e ->] | ->]; reflexivity.
Qed.

(** X10. A non-streaming request answered with success: the answer is 200 with
    the content of the first choice's message, or [''] when there is none
    (no choice, no message, no or empty content), and with the upstream's
    [model] and [usage] as they are; an upstream body without [choices]
    gives the generic 500 instead. *)
Theorem non_streaming_answer (env : Server.Env)
    (fetch : Server.FetchRequest -> Server.FetchOutcome) (body : JSValue)
    (req : Server.FetchRequest) (response : Server.UpstreamResponse) (data : JSValue) :
  In req (snd (Server.chat env fetch body)) ->
  ToBoolean (Spec.field "stream" body) = false ->
  fetch req = Server.Resolved response ->
  (200 <= Server.status response <= 299)%Z ->
  Server.json response = Normal data ->
  Spec.is_present data = true ->
  let content :=
    Spec.field "content" (Spec.field "message" (Spec.first_item (Spec.field "choices" data))) in
  (Spec.is_present (Spec.field "choices" data) = true ->
     fst (Server.chat env fetch body) =
     Server.Json 200
       (JObj [("message", if Spec.present_and_nonempty content then content else JStr "");
              ("model", Spec.field "model" data);
              ("usage", Spec.field "usage" data)]))
  /\ (Spec.is_present (Spec.field "choices" data) = false ->
        fst (Server.chat env fetch body) =
        Server.Json 500
          (JObj [("error", JStr "An unexpected error occurred. Please try again.")])).
Proof.
  intros Hin Hstream Hfetch [Hlo Hhi] Hjson Hdata content.
  destruct (chat_answer env fetch body req Hin) as (props & items & -> & _ & _ & ->).
  rewrite Hfetch. cbn [fst].
  assert (Hok : Server.response_ok response = true).
  { unfold Server.response_ok. apply andb_true_iff. split; now apply Z.leb_le. }
  rewrite Hok. cbn [negb].
  unfold Spec.field in Hstream. cbn [Get] in Hstream.
  assert (Hs : ToBoolean (Spec.or_default (JBool false) (lookup "stream" props)) = false).
  { destruct (lookup "stream" props); try reflexivity; exact Hstream. }
  rewrite Hs. unfold Server.aggregate. rewrite Hjson. cbn [bind].
  assert (Hget : forall key, Get data key = Normal (Spec.field key data)).
  { intros key. destruct (Get_cases data key) as [H | [[e He] _]]; [exact H |].
    destruct data; discriminate. }
  rewrite !Hget. cbn [bind].
  split; intros Hchoices.
  - assert (Hfirst : GetIndex0 (Spec.field "choices" data)
                     = Normal (Spec.first_item (Spec.field "choices" data))).
    { destruct (GetIndex0_cases (Spec.field "choices" data)) as [H | [[e He] _]];
        [exact H |].
      destruct (Spec.field "choices" data); discriminate. }
    rewrite Hfirst. cbn [bind]. rewrite OptGet_field. cbn [bind].
    rewrite OptGet_field. cbn [bind try_catch].
    unfold js_or. rewrite <- present_and_nonempty_ToBoolean. reflexivity.
  - destruct (Spec.field "choices" data); try discriminate; reflexivity.
Qed.

End ChatFacts.

(* ================================================================== *)
(** * The other routes *)
(* ================================================================== *)

Section RouteFacts.
Import JS.
Context {rt : Runtime}.

(** X11. [GET /api/models] contacts the upstream only with a credential and then
    exactly once; it answers 200 with the upstream's JSON as it is when the
    upstream answers a success status with a JSON body, and otherwise a 500
    with a fixed message: neither the upstream status nor its error body is
    passed on. *)
Theorem models_answer (env : Server.Env) (fetch : Server.FetchRequest -> Server.FetchOutcome) :
  (~ Spec.credential_configured env ->
     Routes.models env fetch
     = (Server.Json 500 (JObj [("error", JStr "API key not configured")]), []))
  /\ (Spec.credential_configured env ->
        exists req,
          snd (Routes.models env fetch) = [req]
          /\ Server.url req = "https://api.groq.com/openai/v1/models"
          /\ Server.method req = "GET"
          /\ (forall response data,
                fetch req = Server.Resolved response ->
                (200 <= Server.status response <= 299)%Z ->
                Server.json response = Normal data ->
                fst (Routes.models env fetch) = Server.Json 200 data)
          /\ (fetch req = Server.Rejected
              \/ (exists response,
                    fetch req = Server.Resolved response
                    /\ ((Server.status response < 200 \/ 299 < Server.status response)%Z
                        \/ exists e, Server.json response = Throw e)) ->
              fst (Routes.models env fetch)
              = Server.Json 500 (JObj [("error", JStr "Failed to fetch available models")]))).
Proof.
  pose proof (validateApiKey_configured env) as Hkey. unfold Routes.models.
  destruct (Server.validateApiKey (Server.CONFIG env)) eqn:E; cbn [negb]; split.
  - intros Hno. exfalso. apply Hno, Hkey. reflexivity.
  - intros _. eexists. split; [reflexivity |]. cbn [fst Server.url Server.method].
    split; [reflexivity |]. split; [reflexivity |]. split.
    + intros response data -> [Hlo Hhi] ->.
      assert (Hok : Server.response_ok response = true).
      { unfold Server.response_ok. apply andb_true_iff. split; now apply Z.leb_le. }
      now rewrite Hok.
    + intros [-> | (response & -> & [Hstatus | [e He]])]; [reflexivity | |].
      * assert (Hok : Server.response_ok response = false).
        { unfold Server.response_ok. apply andb_false_iff.
          destruct Hstatus; [left | right]; apply Z.leb_gt; assumption. }
        now rewrite Hok.
      * rewrite He. destruct (negb (Server.response_ok response)); reflexivity.
  - reflexivity.
  - intros Hyes. apply Hkey in Hyes. discriminate.
Qed.

(** X12. The global error handler passes [err.message] on exactly when
    [NODE_ENV] is unset, empty or ['development'] (an unset variable counts
    as development); in every other environment the message is replaced by
    ['Something went wrong']. *)
Theorem error_handler_hides_message_outside_development (env : Server.Env)
    (err_message : JSValue) :
  let development :=
    match Server.env_NODE_ENV env with
    | None => true
    | Some name => (name =? "") || (name =? "development")
    end in
  Routes.errorHandler env err_message
  = Server.Json 500
      (JObj [("error", JStr "Internal Server Error");
             ("message", if development then err_message else JStr "Something went wrong")]).
Proof.
  unfold Routes.errorHandler. cbn [Server.NODE_ENV Server.CONFIG]. unfold Server.env_or.
  destruct (Server.env_NODE_ENV env) as [name |]; [| reflexivity].
  destruct (String.eqb_spec name "") as [-> | Hname]; [reflexivity |].
  cbn [orb]. reflexivity.
Qed.

End RouteFacts.

(* ================================================================== *)
(** * The relay and the readers together *)
(* ================================================================== *)

Section EndToEnd.
Import JS.
Context {rt : Runtime}.

Lemma decode_lines_app (a b : list string) :
  Client.decode_lines (a ++ b) = Client.decode_lines a ++ Client.decode_lines b.
Proof.
  induction a as [| line a IH]; [reflexivity |].
  cbn [app Client.decode_lines]. destruct (Client.decode_line line); now rewrite IH.
Qed.

Lemma decode_line_unmarked (line : string) :
  startsWith line "data: " = false -> Client.decode_line line = None.
Proof. intros H. unfold Client.decode_line. now rewrite H. Qed.

Lemma decode_lines_data_lines (lines : list string) :
  Client.decode_lines (filter Spec.is_data_line lines) = Client.decode_lines lines.
Proof.
  induction lines as [| line lines IH]; [reflexivity |].
  cbn [filter Client.decode_lines]. unfold Spec.is_data_line at 1.
  destruct (startsWith line "data: ") eqn:E.
  - cbn [Client.decode_lines]. now rewrite IH.
  - now rewrite (decode_line_unmarked line E).
Qed.

Lemma split_lines_frame (line : string) :
  split_lines line = [line] -> split_lines (Server.frame line) = [line; ""; ""].
Proof.
  intros Hline. unfold Server.frame, nl, str_of_char. cbn [append].
  rewrite split_lines_break, Hline. reflexivity.
Qed.

Lemma streamResponse_deltas_app (a b : list string) :
  Client.streamResponse_deltas (a ++ b)
  = Client.streamResponse_deltas a ++ Client.streamResponse_deltas b.
Proof.
  induction a as [| chunk a IH]; [reflexivity |].
  cbn [app Client.streamResponse_deltas]. now rewrite IH, app_assoc.
Qed.

(** Reading events one per read decodes their lines. *)
Lemma deltas_of_events (lines : list string) :
  Forall (fun part => split_lines part = [part]) lines ->
  Client.streamResponse_deltas (map Server.frame lines) = Client.decode_lines lines.
Proof.
  induction 1 as [| line lines Hline Hlines IH]; [reflexivity |].
  cbn [map Client.streamResponse_deltas]. unfold Client.chunk_lines.
  rewrite (split_lines_frame line Hline), IH.
  cbn [Client.decode_lines]. rewrite (decode_line_unmarked "" eq_refl).
  destruct (Client.decode_line line); reflexivity.
Qed.

Lemma deltas_of_events_per_chunk (chunks : list string) :
  Client.streamResponse_deltas (Spec.events_per_chunk chunks)
  = Client.streamResponse_deltas chunks.
Proof.
  induction chunks as [| chunk rest IH]; [reflexivity |].
  cbn [Spec.events_per_chunk flat_map]. fold (Spec.events_per_chunk rest).
  rewrite streamResponse_deltas_app, IH. cbn [Client.streamResponse_deltas].
  f_equal. unfold Spec.events_of, Client.chunk_lines.
  rewrite deltas_of_events, decode_lines_data_lines; [reflexivity |].
  apply incl_Forall with (l1 := split_lines chunk); [| apply split_lines_parts].
  intros x Hx. apply filter_In in Hx. tauto.
Qed.

Lemma deltas_of_done : Client.streamResponse_deltas [Server.DONE_FRAME] = [].
Proof.
  cbn [Client.streamResponse_deltas]. unfold Client.chunk_lines, Server.DONE_FRAME.
  rewrite split_lines_frame by reflexivity.
  cbn [Client.decode_lines]. rewrite (decode_line_unmarked "" eq_refl).
  unfold Client.decode_line. reflexivity.
Qed.

(** What a streamed answer holds. *)
Lemma streamed_answer_writes (env : Server.Env)
    (fetch : Server.FetchRequest -> Server.FetchOutcome) (body : JSValue)
    (req : Server.FetchRequest) (response : Server.UpstreamResponse)
    (hdrs : list (string * string)) (writes : list string) (ended : bool) :
  In req (snd (Server.chat env fetch body)) ->
  fetch req = Server.Resolved response ->
  fst (Server.chat env fetch body) = Server.EventStream hdrs writes ended ->
  writes = Spec.events_per_chunk (Server.chunks response)
             ++ (if ended then [Server.DONE_FRAME] else []).
Proof.
  intros Hin Hfetch Hanswer.
  destruct (chat_answer env fetch body req Hin) as (props & items & _ & _ & _ & Hchat).
  rewrite Hchat, Hfetch in Hanswer. cbn [fst] in Hanswer.
  destruct (negb (Server.response_ok response)).
  { destruct (upstream_error_is_json response) as (code & payload & H).
    rewrite H in Hanswer. discriminate. }
  destruct (ToBoolean _).
  2:{ destruct (aggregate_is_json response) as (code & payload & H).
      rewrite H in Hanswer. discriminate. }
  rewrite stream_loop_eq in Hanswer. cbv zeta in Hanswer. cbn [app] in Hanswer.
  destruct (Server.read_fails response).
  - destruct (negb _); [discriminate |]. injection Hanswer as <- <- <-.
    now rewrite app_nil_r.
  - injection Hanswer as <- <- <-. reflexivity.
Qed.

(** X3. The relay in front of the reader of chatbot.js neither adds nor loses a
    delta: reading a streamed answer one write per read yields the deltas
    that reading the upstream chunks themselves yields, the sentinel
    included or not. *)
Theorem relay_is_transparent_to_reader (env : Server.Env)
    (fetch : Server.FetchRequest -> Server.FetchOutcome) (body : JSValue)
    (req : Server.FetchRequest) (response : Server.UpstreamResponse)
    (hdrs : list (string * string)) (writes : list string) (ended : bool) :
  In req (snd (Server.chat env fetch body)) ->
  fetch req = Server.Resolved response ->
  fst (Server.chat env fetch body) = Server.EventStream hdrs writes ended ->
  Client.streamResponse_deltas writes = Client.streamResponse_deltas (Server.chunks response).
Proof.
  intros Hin Hfetch Hanswer.
  rewrite (streamed_answer_writes env fetch body req response hdrs writes ended
             Hin Hfetch Hanswer).
  rewrite streamResponse_deltas_app, deltas_of_events_per_chunk.
  destruct ended; [rewrite deltas_of_done |]; now rewrite app_nil_r.
Qed.

End EndToEnd.

Section EndToEndBuffered.
Import JS.
Context {rt : Runtime}.

Lemma events_per_chunk_map (chunks : list string) :
  Spec.events_per_chunk chunks
  = map Server.frame
      (flat_map (fun chunk => filter Spec.is_data_line (split_lines chunk)) chunks).
Proof.
  unfold Spec.events_per_chunk, Spec.events_of.
  induction chunks as [| chunk rest IH]; [reflexivity |].
  cbn [flat_map]. now rewrite map_app, IH.
Qed.

Lemma data_lines_single (chunks : list string) :
  Forall (fun part => split_lines part = [part])
    (flat_map (fun chunk => filter Spec.is_data_line (split_lines chunk)) chunks).
Proof.
  induction chunks as [| chunk rest IH]; cbn [flat_map]; [constructor |].
  apply Forall_app. split; [| exact IH].
  apply incl_Forall with (l1 := split_lines chunk); [| apply split_lines_parts].
  intros x Hx. apply filter_In in Hx. tauto.
Qed.

Lemma decode_data_lines (chunks : list string) :
  Client.decode_lines
    (flat_map (fun chunk => filter Spec.is_data_line (split_lines chunk)) chunks)
  = Client.streamResponse_deltas chunks.
Proof.
  induction chunks as [| chunk rest IH]; [reflexivity |].
  cbn [flat_map Client.streamResponse_deltas].
  now rewrite decode_lines_app, decode_lines_data_lines, IH.
Qed.

(** The text of events, split at the line breaks: every line, each followed
    by an empty part, and a last empty part. *)
Lemma split_lines_events (lines : list string) :
  Forall (fun part => split_lines part = [part]) lines ->
  split_lines (Spec.stream_text (map Server.frame lines))
  = flat_map (fun line => [line; ""]) lines ++ [""].
Proof.
  induction 1 as [| line lines Hline Hlines IH]; [reflexivity |].
  cbn [map Spec.stream_text flat_map].
  set (rest := Spec.stream_text (map Server.frame lines)) in *.
  unfold Server.frame, nl, str_of_char.
  rewrite !string_app_assoc. cbn [append].
  rewrite split_lines_break, Hline. cbn [split_lines].
  change (Ascii.eqb LF LF) with true. cbv iota. now rewrite IH.
Qed.

Lemma decode_lines_spaced (lines : list string) :
  Client.decode_lines (flat_map (fun line => [line; ""]) lines) = Client.decode_lines lines.
Proof.
  induction lines as [| line lines IH]; [reflexivity |].
  cbn [flat_map app Client.decode_lines]. rewrite (decode_line_unmarked "" eq_refl), IH.
  reflexivity.
Qed.

(** X4. Behind the relay the buffered reader of the documentation is immune to
    how the network cuts the answer: however the text of a streamed answer
    is delivered in chunks, it yields the deltas of the upstream chunks. *)
Theorem relay_is_transparent_to_buffered_reader (env : Server.Env)
    (fetch : Server.FetchRequest -> Server.FetchOutcome) (body : JSValue)
    (req : Server.FetchRequest) (response : Server.UpstreamResponse)
    (hdrs : list (string * string)) (writes : list string) (ended : bool)
    (delivered : list string) :
  In req (snd (Server.chat env fetch body)) ->
  fetch req = Server.Resolved response ->
  fst (Server.chat env fetch body) = Server.EventStream hdrs writes ended ->
  Spec.stream_text delivered = Spec.stream_text writes ->
  DocumentedReader.streamMessage_deltas delivered
  = Client.streamResponse_deltas (Server.chunks response).
Proof.
  intros Hin Hfetch Hanswer Htext.
  rewrite (streamed_answer_writes env fetch body req response hdrs writes ended
             Hin Hfetch Hanswer) in Htext.
  rewrite events_per_chunk_map in Htext.
  set (data := flat_map (fun chunk => filter Spec.is_data_line (split_lines chunk))
                 (Server.chunks response)) in *.
  set (lines := data ++ (if ended then ["data: [DONE]"] else [])).
  assert (Hwrites : map Server.frame data ++ (if ended then [Server.DONE_FRAME] else [])
                    = map Server.frame lines).
  { unfold lines. rewrite map_app. now destruct ended. }
  rewrite Hwrites in Htext.
  assert (Hsingle : Forall (fun part => split_lines part = [part]) lines).
  { unfold lines. apply Forall_app. split; [apply data_lines_single |].
    destruct ended; repeat constructor. }
  unfold DocumentedReader.streamMessage_deltas.
  pose proof (feed_all_parts delivered "" eq_refl) as Hparts.
  cbn [append] in Hparts. rewrite Htext, (split_lines_events lines Hsingle) in Hparts.
  apply app_inj_tail in Hparts. destruct Hparts as [-> _].
  rewrite decode_lines_spaced. unfold lines. rewrite decode_lines_app.
  unfold data. rewrite decode_data_lines.
  destruct ended; [| now rewrite app_nil_r].
  cbn [Client.decode_lines]. unfold Client.decode_line. cbn. now rewrite app_nil_r.
Qed.

End EndToEndBuffered.

(* ================================================================== *)
(** * The client and the server together *)
(* ================================================================== *)

Section ClientServer.
Import JS.
Context {rt : Runtime}.

Lemma lacks_role_or_content_json (m : History.Message) :
  Server.lacks_role_or_content (History.message_json m)
  = Normal ((History.role m =? "") || (History.content m =? "")).
Proof.
  unfold Server.lacks_role_or_content, History.message_json. cbn.
  destruct (History.role m =? ""); cbn; [reflexivity |].
  destruct (History.content m =? ""); reflexivity.
Qed.

Lemma some_lacks_json (msgs : list History.Message) :
  Server.some Server.lacks_role_or_content (map History.message_json msgs)
  = Normal (existsb (fun m => (History.role m =? "") || (History.content m =? "")) msgs).
Proof.
  induction msgs as [| m msgs IH]; [reflexivity |].
  cbn [map Server.some existsb]. rewrite lacks_role_or_content_json. cbn [bind].
  destruct ((History.role m =? "") || (History.content m =? "")); [reflexivity | exact IH].
Qed.

(** A request whose history holds a message with an empty text is refused. *)
Lemma empty_message_refused (msgs : list History.Message) (options : list (string * JSValue)) :
  existsb (fun m => (History.role m =? "") || (History.content m =? "")) msgs = true ->
  Server.validateChatRequest (Api.request_body (History.messages_json msgs) options)
  = Normal (Server.invalid Server.MSG_MESSAGE).
Proof.
  intros Hempty. unfold Server.validateChatRequest, Api.request_body, History.messages_json.
  cbn [Get bind lookup String.eqb Ascii.eqb Bool.eqb].
  destruct msgs as [| m msgs]; [discriminate |].
  cbn [ToBoolean isArray negb orb Server.array_items map List.length Nat.eqb].
  change (History.message_json m :: map History.message_json msgs)
    with (map History.message_json (m :: msgs)).
  rewrite some_lacks_json, Hempty. reflexivity.
Qed.

(** X14. An answer streamed without any delta leaves the conversation stuck: the
    assistant's turn is stored with an empty text, and every later request,
    which carries the whole history, is refused by the server with 400
    [Each message must have role and content] before anything goes upstream,
    which the chat shows as an error. *)
Theorem empty_reply_blocks_the_conversation (env : Server.Env)
    (fetch : Server.FetchRequest -> Server.FetchOutcome)
    (msgs later : list History.Message) (message : string) (chunks : list string)
    (options : list (string * JSValue)) (statusText : string) :
  Spec.credential_configured env ->
  Client.streamResponse chunks "" = "" ->
  let history := History.streamed_turn message chunks msgs ++ later in
  Server.chat env fetch (Api.request_body (History.messages_json history) options)
  = (Server.Json 400 (JObj [("error", JStr "Each message must have role and content")]), [])
  /\ option_map Api.error_reply
       (Api.sendMessage_error 400 statusText
          (Normal (JObj [("error", JStr "Each message must have role and content")])))
     = Some "Sorry, I encountered an error. Each message must have role and content".
Proof.
  intros Hkey Hempty history. split; [| reflexivity].
  apply validateApiKey_configured in Hkey.
  apply (chat_invalid env fetch _ Server.MSG_MESSAGE Hkey).
  apply empty_message_refused.
  unfold history, History.streamed_turn. rewrite !existsb_app.
  cbn [existsb History.role History.content]. rewrite Hempty.
  rewrite String.eqb_refl. cbn [orb]. now rewrite !orb_true_r.
Qed.

(** X15. What the chat shows for the server's own refusals.  Without a
    credential, whatever is sent, it is the hint to check [GROQ_API_KEY]; for
    a body the validator refuses, it is the validator's message after
    [Sorry, I encountered an error. ]. *)
Theorem refusals_as_shown (env : Server.Env)
    (fetch : Server.FetchRequest -> Server.FetchOutcome) (body : JSValue)
    (statusText : string) :
  (~ Spec.credential_configured env ->
     exists payload,
       fst (Server.chat env fetch body) = Server.Json 500 payload
       /\ option_map Api.error_reply (Api.sendMessage_error 500 statusText (Normal payload))
          = Some ("Sorry, I encountered an error. "
                  ++ "Server configuration error. Check GROQ_API_KEY in .env file.")%string)
  /\ (forall v,
        Spec.credential_configured env ->
        Server.validateChatRequest body = Normal v ->
        Server.valid v = false ->
        exists payload message,
          fst (Server.chat env fetch body) = Server.Json 400 payload
          /\ Server.error v = Some message
          /\ option_map Api.error_reply
               (Api.sendMessage_error 400 statusText (Normal payload))
             = Some ("Sorry, I encountered an error. " ++ message)%string).
Proof.
  split.
  - intros Hno.
    assert (Hkey : Server.validateApiKey (Server.CONFIG env) = false).
    { destruct (Server.validateApiKey (Server.CONFIG env)) eqn:E; [| reflexivity].
      exfalso. apply Hno. now apply validateApiKey_configured. }
    rewrite (chat_without_key env fetch body Hkey). eexists. split; reflexivity.
  - intros v Hkey Hv Hvalid. apply validateApiKey_configured in Hkey.
    destruct (validation_messages body v Hv Hvalid) as [violation ->].
    rewrite (chat_invalid env fetch body _ Hkey Hv).
    eexists. eexists. split; [reflexivity |]. split; [reflexivity |].
    destruct violation; reflexivity.
Qed.

End ClientServer.

(* ================================================================== *)
(** * The conversation history *)
(* ================================================================== *)

Section HistoryFacts.
Import JS.
Import History.
Context {tx : Text}.

Lemma findIndex_none (cid : option string) (l : list Chat) :
  findIndex (id_is cid) l = None -> forall c, In c l -> id_is cid c = false.
Proof.
  induction l as [| x l IH]; intros Hnone c Hin; [destruct Hin |].
  cbn [findIndex] in Hnone. destruct (id_is cid x) eqn:Ex; [discriminate |].
  destruct (findIndex (id_is cid) l); [discriminate |].
  destruct Hin as [<- | Hin]; [exact Ex | now apply IH].
Qed.

Lemma findIndex_some (cid : option string) (l : list Chat) (i : nat) :
  findIndex (id_is cid) l = Some i ->
  (i < List.length l)%nat
  /\ exists before x after,
       l = before ++ x :: after /\ List.length before = i /\ id_is cid x = true
       /\ (forall c, In c before -> id_is cid c = false).
Proof.
  revert i. induction l as [| y l IH]; intros i Hi; [discriminate |].
  cbn [findIndex] in Hi. destruct (id_is cid y) eqn:Ey.
  - injection Hi as <-. split; [simpl; lia |].
    exists [], y, l. repeat split; auto. intros c [].
  - destruct (findIndex (id_is cid) l) as [j |]; [| discriminate].
    injection Hi as <-. destruct (IH j eq_refl) as (Hlt & before & x & after & -> & Hlen & Hx & Hb).
    split; [simpl; lia |].
    exists (y :: before), x, after. repeat split; simpl; auto.
    intros c [<- | Hc]; auto.
Qed.

Lemma assign_at (before after : list Chat) (x c : Chat) :
  assign (List.length before) c (before ++ x :: after) = before ++ c :: after.
Proof. induction before as [| y before IH]; simpl; [reflexivity | now rewrite IH]. Qed.

(** The history after a save that takes place. *)
Lemma saveChat_chats (now : Z) (app : App) (cid : string) :
  currentChatId app = Some cid -> cid <> "" -> currentMessages app <> [] ->
  exists updated,
    saveChat now app
    = {| currentChatId := Some cid;
         chats := if (MAX_CHAT_HISTORY <? List.length updated)%nat
                  then firstn MAX_CHAT_HISTORY updated else updated;
         currentMessages := currentMessages app;
         settings_model := settings_model app;
         stored := Some (if (MAX_CHAT_HISTORY <? List.length updated)%nat
                         then firstn MAX_CHAT_HISTORY updated else updated) |}
    /\ ((exists before x after,
           chats app = before ++ x :: after
           /\ id x = cid
           /\ (forall c, In c before -> id c <> cid)
           /\ updated = before ++ chatData now app cid :: after)
        \/ ((forall c, In c (chats app) -> id c <> cid)
            /\ updated = chatData now app cid :: chats app)).
Proof.
  intros Hcid Hne Hmsgs. unfold saveChat. rewrite Hcid.
  apply String.eqb_neq in Hne. rewrite Hne.
  destruct (currentMessages app) as [| m ms] eqn:Em; [contradiction |].
  cbn [List.length Nat.eqb orb]. rewrite <- Em.
  destruct (findIndex (id_is (Some cid)) (chats app)) as [i |] eqn:Ei.
  - destruct (findIndex_some _ _ _ Ei) as (_ & before & x & after & Hl & Hlen & Hx & Hb).
    eexists. split; [reflexivity |]. left.
    exists before, x, after. rewrite Hl, <- Hlen, assign_at.
    repeat split; auto.
    + now apply String.eqb_eq.
    + intros c Hc. apply String.eqb_neq. now apply Hb.
  - eexists. split; [reflexivity |]. right. split; [| reflexivity].
    intros c Hc. apply String.eqb_neq. exact (findIndex_none _ _ Ei c Hc).
Qed.

(** A save that does not take place changes nothing. *)
Lemma saveChat_skipped (now : Z) (app : App) :
  id_truthy (currentChatId app) = false \/ currentMessages app = [] ->
  saveChat now app = app.
Proof.
  unfold saveChat, id_truthy. intros [Hid | Hmsgs].
  - destruct (currentChatId app) as [cid |]; [| reflexivity].
    apply negb_false_iff in Hid. now rewrite Hid.
  - destruct (currentChatId app) as [cid |]; [| reflexivity].
    rewrite Hmsgs. cbn. now rewrite orb_true_r.
Qed.

Lemma saveChat_cases (now : Z) (app : App) :
  saveChat now app = app
  \/ exists cid,
       currentChatId app = Some cid /\ cid <> "" /\ currentMessages app <> [].
Proof.
  destruct (currentChatId app) as [cid |] eqn:Ecid.
  - destruct (String.eqb_spec cid "") as [-> | Hne].
    + left. apply saveChat_skipped. left. unfold id_truthy. now rewrite Ecid.
    + destruct (currentMessages app) eqn:Em.
      * left. apply saveChat_skipped. now right.
      * right. exists cid. repeat split; auto. discriminate.
  - left. apply saveChat_skipped. left. unfold id_truthy. now rewrite Ecid.
Qed.

Lemma In_firstn {A} (n : nat) (l : list A) (x : A) : In x (firstn n l) -> In x l.
Proof.
  revert n. induction l as [| y l IH]; intros n Hin; destruct n; cbn in *; try tauto.
  destruct Hin as [-> | Hin]; [now left | right; now apply (IH n)].
Qed.

Lemma NoDup_firstn {A} (n : nat) (l : list A) : NoDup l -> NoDup (firstn n l).
Proof.
  revert n. induction l as [| x l IH]; intros n Hl; destruct n; cbn; try constructor.
  - inversion Hl as [| ? ? Hx Hrest]; subst. intros Hin. apply Hx.
    now apply (In_firstn n).
  - inversion Hl; subst. now apply IH.
Qed.

(** Filtering the history keeps the ids distinct. *)
Lemma filter_ids_distinct (keep : Chat -> bool) (history : list Chat) :
  NoDup (map id history) -> NoDup (map id (filter keep history)).
Proof.
  intros Hids. induction history as [| chat history IH]; [constructor |].
  cbn [map] in Hids. apply NoDup_cons_iff in Hids. destruct Hids as [Hfresh Hrest].
  cbn [filter]. destruct (keep chat); [| now apply IH].
  cbn [map]. apply NoDup_cons; [| now apply IH].
  rewrite in_map_iff. intros (other & Hid & Hin).
  apply Hfresh. rewrite in_map_iff. exists other. split; [exact Hid |].
  apply filter_In in Hin. tauto.
Qed.

Lemma kept_length (updated : list Chat) :
  (List.length (if (MAX_CHAT_HISTORY <? List.length updated)%nat
                then firstn MAX_CHAT_HISTORY updated else updated)
   <= MAX_CHAT_HISTORY)%nat.
Proof.
  destruct (Nat.ltb_spec MAX_CHAT_HISTORY (List.length updated)); [| assumption].
  apply firstn_le_length.
Qed.

Lemma kept_NoDup (updated : list Chat) :
  NoDup (map id updated) ->
  NoDup (map id (if (MAX_CHAT_HISTORY <? List.length updated)%nat
                 then firstn MAX_CHAT_HISTORY updated else updated)).
Proof.
  intros H. destruct (MAX_CHAT_HISTORY <? List.length updated)%nat; [| exact H].
  rewrite <- firstn_map. now apply NoDup_firstn.
Qed.

Lemma saveChat_consistent (now : Z) (app : App) :
  consistent app -> consistent (saveChat now app).
Proof.
  intros (Hlen & Hids & Hstored).
  destruct (saveChat_cases now app) as [-> | (cid & Hcid & Hne & Hmsgs)];
    [repeat split; assumption |].
  destruct (saveChat_chats now app cid Hcid Hne Hmsgs) as (updated & -> & Hupdated).
  repeat split; cbn [chats stored].
  - apply kept_length.
  - apply kept_NoDup.
    destruct Hupdated as [(before & x & after & Hl & Hx & _ & ->) | [Hfresh ->]].
    + rewrite Hl in Hids. rewrite map_app in *. cbn [map chatData id] in *.
      now rewrite Hx in Hids.
    + cbn [map chatData id]. constructor; [| exact Hids].
      intros Hin. apply in_map_iff in Hin. destruct Hin as (c & Hc & Hin).
      exact (Hfresh c Hin Hc).
  - intros l [= <-]. reflexivity.
Qed.

Lemma autosave_consistent (now : Z) (app : App) :
  consistent app ->
  consistent (if id_truthy (currentChatId app) && AUTO_SAVE then saveChat now app else app).
Proof.
  intros H. destruct (id_truthy (currentChatId app) && AUTO_SAVE); [| exact H].
  now apply saveChat_consistent.
Qed.

Lemma newChat_consistent (fresh : string) (now : Z) (app : App) :
  consistent app -> consistent (newChat fresh now app).
Proof. intros H. exact (autosave_consistent now app H). Qed.

Lemma perform_consistent (app : App) (a : Action) :
  consistent app -> consistent (perform app a).
Proof.
  intros H. destruct a as [now | fresh now | chatId now | confirmed chatId fresh now
                          | confirmed fresh now]; cbn [perform].
  - now apply saveChat_consistent.
  - now apply newChat_consistent.
  - unfold loadChat. destruct (find _ _); [| exact H].
    exact (autosave_consistent now app H).
  - unfold deleteChat. destruct confirmed; cbn [negb]; [| exact H].
    destruct H as (Hlen & Hids & _).
    assert (Hdeleted : consistent
              {| currentChatId := currentChatId app;
                 chats := filter (fun c => negb (id c =? chatId)) (chats app);
                 currentMessages := currentMessages app;
                 settings_model := settings_model app;
                 stored := Some (filter (fun c => negb (id c =? chatId)) (chats app)) |}).
    { repeat split; cbn [chats stored].
      - pose proof (filter_length_le (fun c => negb (id c =? chatId)) (chats app)). lia.
      - now apply filter_ids_distinct.
      - intros l [= <-]. reflexivity. }
    destruct (is_current chatId app); [now apply newChat_consistent | exact Hdeleted].
  - unfold clearAll. destruct confirmed; cbn [negb]; [| exact H].
    apply newChat_consistent. repeat split; cbn [chats stored].
    + unfold MAX_CHAT_HISTORY. simpl. lia.
    + constructor.
    + intros l [= <-]. reflexivity.
Qed.

(** X18. Whatever the user does with the history (save, new chat, open, delete,
    clear, in any order and with any answers to the confirmations), it holds
    at most 100 conversations, no two conversations share an id, and what
    was last handed to [Storage.set('chats', ...)] is the history in memory. *)
Theorem history_stays_consistent (actions : list Action) (app : App) :
  consistent app -> consistent (fold_left perform actions app).
Proof.
  revert app. induction actions as [| a actions IH]; intros app H; [exact H |].
  cbn [fold_left]. apply IH. now apply perform_consistent.
Qed.

Lemma find_past (cid : string) (before after : list Chat) (x : Chat) :
  (forall c, In c before -> id c <> cid) -> id x = cid ->
  find (id_is (Some cid)) (before ++ x :: after) = Some x
  /\ findIndex (id_is (Some cid)) (before ++ x :: after) = Some (List.length before).
Proof.
  intros Hbefore Hx. induction before as [| y before IH]; cbn [app find findIndex id_is].
  - apply String.eqb_eq in Hx. rewrite Hx. auto.
  - assert (Hy : (id y =? cid) = false) by (apply String.eqb_neq, Hbefore; now left).
    rewrite Hy. destruct IH as [-> ->]; [intros c Hc; apply Hbefore; now right |].
    auto.
Qed.

(** X19. A conversation left through "new chat" is in the history with its
    messages, and opening it again makes it the current conversation with
    those messages, the history unchanged. *)
Theorem left_conversation_reopens (fresh cid : string) (now later : Z) (app : App) :
  currentChatId app = Some cid -> cid <> "" -> currentMessages app <> [] ->
  (List.length (chats app) <= MAX_CHAT_HISTORY)%nat ->
  let left := newChat fresh now app in
  let reopened := loadChat cid later left in
  find (id_is (Some cid)) (chats left) = Some (chatData now app cid)
  /\ currentChatId left = Some fresh /\ currentMessages left = []
  /\ currentChatId reopened = Some cid
  /\ currentMessages reopened = currentMessages app
  /\ chats reopened = chats left.
Proof.
  intros Hcid Hne Hmsgs Hlen left reopened.
  assert (Hfind : find (id_is (Some cid)) (chats left) = Some (chatData now app cid)).
  { unfold left, newChat. unfold id_truthy at 1. rewrite Hcid.
    apply String.eqb_neq in Hne as Hne'. rewrite Hne'. cbn [negb andb AUTO_SAVE].
    destruct (saveChat_chats now app cid Hcid Hne Hmsgs) as (updated & -> & Hupdated).
    cbn [chats].
    destruct Hupdated as [(before & x & after & Hl & Hx & Hb & ->) | [Hfresh ->]].
    - assert (Hsame : List.length (before ++ chatData now app cid :: after)
                      = List.length (chats app)).
      { rewrite Hl, !length_app. reflexivity. }
      rewrite Hsame. destruct (Nat.ltb_spec MAX_CHAT_HISTORY (List.length (chats app)));
        [lia |].
      now apply find_past.
    - destruct (MAX_CHAT_HISTORY <? _)%nat; cbn [MAX_CHAT_HISTORY firstn find id_is chatData id];
        now rewrite String.eqb_refl. }
  split; [exact Hfind |]. split; [reflexivity |]. split; [reflexivity |].
  unfold reopened, loadChat. rewrite Hfind.
  assert (Hskip : (if id_truthy (currentChatId left) && AUTO_SAVE
                   then saveChat later left else left) = left).
  { destruct (id_truthy (currentChatId left) && AUTO_SAVE); [| reflexivity].
    apply saveChat_skipped. now right. }
  rewrite Hskip. repeat split.
Qed.

(** Where a save that takes place puts the conversation, at any time. *)
Lemma saveChat_shape (app : App) (cid : string) :
  currentChatId app = Some cid -> cid <> "" -> currentMessages app <> [] ->
  (List.length (chats app) <= MAX_CHAT_HISTORY)%nat ->
  exists before after,
    (forall c, In c before -> id c <> cid)
    /\ (List.length (before ++ after) < MAX_CHAT_HISTORY)%nat
    /\ forall t,
         saveChat t app
         = {| currentChatId := Some cid;
              chats := before ++ chatData t app cid :: after;
              currentMessages := currentMessages app;
              settings_model := settings_model app;
              stored := Some (before ++ chatData t app cid :: after) |}.
Proof.
  intros Hcid Hne Hmsgs Hlen. apply String.eqb_neq in Hne.
  assert (Hsave : forall t,
             saveChat t app
             = let data := chatData t app cid in
               let updated := match findIndex (id_is (Some cid)) (chats app) with
                              | Some existingIndex => assign existingIndex data (chats app)
                              | None => data :: chats app
                              end in
               let kept := if (MAX_CHAT_HISTORY <? List.length updated)%nat
                           then firstn MAX_CHAT_HISTORY updated else updated in
               {| currentChatId := Some cid; chats := kept;
                  currentMessages := currentMessages app;
                  settings_model := settings_model app; stored := Some kept |}).
  { intros t. unfold saveChat. rewrite Hcid, Hne.
    destruct (currentMessages app); [contradiction | reflexivity]. }
  destruct (findIndex (id_is (Some cid)) (chats app)) as [i |] eqn:Ei.
  - destruct (findIndex_some _ _ _ Ei) as (_ & before & x & after & Hl & Hi & _ & Hb).
    rewrite Hl, length_app in Hlen. cbn [List.length] in Hlen.
    exists before, after. split; [| split].
    + intros c Hc. apply String.eqb_neq. now apply Hb.
    + rewrite length_app. lia.
    + intros t. rewrite Hsave. cbv zeta. rewrite Hl, <- Hi, assign_at.
      destruct (Nat.ltb_spec MAX_CHAT_HISTORY
                  (List.length (before ++ chatData t app cid :: after))) as [Hcut |];
        [| reflexivity].
      rewrite length_app in Hcut. cbn [List.length] in Hcut. lia.
  - exists [], (if (MAX_CHAT_HISTORY <? S (List.length (chats app)))%nat
                then firstn (pred MAX_CHAT_HISTORY) (chats app) else chats app).
    split; [intros c [] |]. split.
    + cbn [List.app].
      destruct (Nat.ltb_spec MAX_CHAT_HISTORY (S (List.length (chats app)))); [| lia].
      pose proof (firstn_le_length (pred MAX_CHAT_HISTORY) (chats app)).
      unfold MAX_CHAT_HISTORY in *. simpl pred in *. lia.
    + intros t. rewrite Hsave. cbv zeta. cbn [List.length List.app].
      destruct (MAX_CHAT_HISTORY <? S (List.length (chats app)))%nat; reflexivity.
Qed.

(** X20. A second save replaces the first: saving and saving again comes to
    saving once at the later time; in particular a save repeated at once
    changes nothing. *)
Theorem saveChat_idempotent (now later : Z) (app : App) :
  (List.length (chats app) <= MAX_CHAT_HISTORY)%nat ->
  saveChat later (saveChat now app) = saveChat later app.
Proof.
  intros Hlen.
  destruct (saveChat_cases now app) as [H | (cid & Hcid & Hne & Hmsgs)];
    [now rewrite H |].
  destruct (saveChat_shape app cid Hcid Hne Hmsgs Hlen)
    as (before & after & Hb & Hroom & Hshape).
  rewrite (Hshape now), (Hshape later).
  unfold saveChat at 1. cbn [currentChatId currentMessages chats settings_model].
  apply String.eqb_neq in Hne. rewrite Hne.
  destruct (currentMessages app) as [| m ms] eqn:Em; [contradiction |].
  cbn [List.length Nat.eqb orb]. rewrite <- Em.
  destruct (find_past cid before after (chatData now app cid) Hb eq_refl) as [_ ->].
  rewrite assign_at.
  change (chatData later _ cid) with (chatData later app cid).
  destruct (Nat.ltb_spec MAX_CHAT_HISTORY
              (List.length (before ++ chatData later app cid :: after))) as [Hcut |];
    [| reflexivity].
  rewrite length_app in *. cbn [List.length] in Hcut. lia.
Qed.

(** X21. Deleting a conversation other than the open one removes it, and only it,
    from the history and hands the result to storage; the open conversation
    is untouched.  Declining the confirmation changes nothing. *)
Theorem deleteChat_removes_other_chat (chatId fresh : string) (now : Z) (app : App) :
  currentChatId app <> Some chatId ->
  let after := deleteChat true chatId fresh now app in
  (forall c, In c (chats after) <-> In c (chats app) /\ id c <> chatId)
  /\ chats after = filter (fun c => negb (id c =? chatId)) (chats app)
  /\ stored after = Some (chats after)
  /\ currentChatId after = currentChatId app
  /\ currentMessages after = currentMessages app
  /\ deleteChat false chatId fresh now app = app.
Proof.
  intros Hother after.
  assert (Hcur : is_current chatId app = false).
  { unfold is_current. destruct (currentChatId app) as [cid |]; [| reflexivity].
    apply String.eqb_neq. congruence. }
  unfold after, deleteChat. cbn [negb]. rewrite Hcur. cbn [chats stored currentChatId
    currentMessages].
  split; [| repeat split].
  intros c. rewrite filter_In, negb_true_iff, String.eqb_neq. reflexivity.
Qed.

(** X22. Deleting the open conversation, or clearing all conversations, while the
    open one holds messages does not get rid of it: the "new chat" that
    follows saves the open conversation first, so it is back at the head of
    the history and in what is handed to storage. *)
Theorem deleted_open_chat_is_saved_again (cid fresh : string) (now : Z) (app : App) :
  currentChatId app = Some cid -> cid <> "" -> currentMessages app <> [] ->
  (exists rest,
     chats (deleteChat true cid fresh now app) = chatData now app cid :: rest
     /\ stored (deleteChat true cid fresh now app) = Some (chatData now app cid :: rest))
  /\ chats (clearAll true fresh now app) = [chatData now app cid]
  /\ stored (clearAll true fresh now app) = Some [chatData now app cid].
Proof.
  intros Hcid Hne Hmsgs.
  assert (Hnew : forall base,
             (forall c, In c base -> id c <> cid) ->
             exists rest,
               let app' := newChat fresh now
                             {| currentChatId := currentChatId app; chats := base;
                                currentMessages := currentMessages app;
                                settings_model := settings_model app;
                                stored := Some base |} in
               chats app' = chatData now app cid :: rest
               /\ stored app' = Some (chatData now app cid :: rest)
               /\ (base = [] -> rest = [])).
  { intros base Hbase. unfold newChat. cbn [currentChatId]. unfold id_truthy. rewrite Hcid.
    apply String.eqb_neq in Hne as Hne'. rewrite Hne'. cbn [negb andb AUTO_SAVE].
    edestruct (saveChat_chats now
                 {| currentChatId := Some cid; chats := base;
                    currentMessages := currentMessages app;
                    settings_model := settings_model app; stored := Some base |} cid)
      as (updated & -> & Hupdated); try (reflexivity || assumption).
    cbn [chats stored].
    destruct Hupdated as [(before & x & after & Hl & Hx & _ & _) | [_ ->]].
    - cbn [chats] in Hl. exfalso. apply (Hbase x); [| exact Hx].
      rewrite Hl. apply in_or_app. right. now left.
    - cbn [chats]. change (chatData now _ cid) with (chatData now app cid).
      destruct (MAX_CHAT_HISTORY <? _)%nat eqn:E.
      + cbn [MAX_CHAT_HISTORY firstn]. eexists. repeat split.
        intros ->. reflexivity.
      + eexists. repeat split. auto. }
  split; [| split].
  - assert (Hcur : is_current cid app = true).
    { unfold is_current. rewrite Hcid. apply String.eqb_refl. }
    unfold deleteChat. rewrite Hcur. cbn [negb].
    destruct (Hnew (filter (fun c => negb (id c =? cid)) (chats app))) as (rest & H1 & H2 & _).
    { intros c Hin. apply filter_In in Hin. destruct Hin as [_ Hin].
      apply negb_true_iff in Hin. now apply String.eqb_neq. }
    exists rest. split; assumption.
  - unfold clearAll. cbn [negb].
    destruct (Hnew []) as (rest & H1 & _ & Hrest); [intros c [] |].
    rewrite (Hrest eq_refl) in H1. exact H1.
  - unfold clearAll. cbn [negb].
    destruct (Hnew []) as (rest & _ & H2 & Hrest); [intros c [] |].
    rewrite (Hrest eq_refl) in H2. exact H2.
Qed.

End HistoryFacts.

(* ================================================================== *)
(** * The client's requests at the server *)
(* ================================================================== *)

Section ClientRequests.
Import JS.
Context {rt : Runtime}.

(** X13. What the validator answers to a request as [API.sendMessage] builds it
    from the conversation and the settings, the temperature setting being a
    number or left to its default: an empty conversation is refused, then a
    conversation in which some message has an empty role or text, then a
    temperature outside [0, 2]; everything else passes, the client's fixed
    [max_tokens] of 2048 included. *)
Theorem client_request_validation (msgs : list History.Message)
    (options : list (string * JSValue)) :
  let body := Api.request_body (History.messages_json msgs) options in
  Spec.number_or_absent (Spec.field "temperature" body) = true ->
  Server.validateChatRequest body
  = Normal (match msgs with
            | [] => Server.invalid "Messages array is required and cannot be empty"
            | _ :: _ =>
                if existsb (fun m => (History.role m =? "") || (History.content m =? "")) msgs
                then Server.invalid "Each message must have role and content"
                else if Spec.within 0 2 (Spec.field "temperature" body)
                then Server.ok
                else Server.invalid "Temperature must be between 0 and 2"
            end).
Proof.
  intros body Hnumber.
  destruct msgs as [| m msgs]; [reflexivity |].
  destruct (existsb (fun m => (History.role m =? "") || (History.content m =? ""))
              (m :: msgs)) eqn:Hempty.
  { now apply empty_message_refused. }
  unfold body, Spec.field, Api.request_body in *.
  set (temperature := Server.default_to Api.DEFAULT_TEMPERATURE (lookup "temperature" options))
    in *.
  unfold Server.validateChatRequest, History.messages_json.
  cbn [Get bind lookup String.eqb Ascii.eqb Bool.eqb] in *.
  cbn [ToBoolean isArray negb orb Server.array_items map List.length Nat.eqb].
  change (History.message_json m :: map History.message_json msgs)
    with (map History.message_json (m :: msgs)).
  rewrite some_lacks_json, Hempty. cbn [bind].
  rewrite (range_guard temperature 0 2 Hnumber) by (right; right; lia).
  assert (Hdefined : temperature <> JUndefined).
  { unfold temperature. destruct (lookup "temperature" options); discriminate. }
  destruct temperature; try contradiction; cbn [Spec.in_range_if_present];
    (destruct (Spec.within 0 2 _); reflexivity).
Qed.

(** X16. An error of the upstream reaches the user: when the upstream refuses a
    request with a structured error whose message is a non-empty text, the
    server passes status and message on, the client takes the answer for a
    failure, and the chat shows that message after [Sorry, I encountered an
    error. ], or the hint it keys on the message. *)
Theorem upstream_error_as_shown (env : Server.Env)
    (fetch : Server.FetchRequest -> Server.FetchOutcome) (body : JSValue)
    (req : Server.FetchRequest) (response : Server.UpstreamResponse)
    (errorData : JSValue) (message statusText : string) :
  In req (snd (Server.chat env fetch body)) ->
  fetch req = Server.Resolved response ->
  (Server.status response < 200 \/ 299 < Server.status response)%Z ->
  Server.json response = Normal errorData ->
  Spec.field "message" (Spec.field "error" errorData) = JStr message ->
  message <> "" ->
  fst (Server.chat env fetch body)
  = Server.Json (Server.status response) (JObj [("error", JStr message)])
  /\ Api.sendMessage_error (Server.status response) statusText
       (Normal (JObj [("error", JStr message)]))
     = Some message
  /\ Api.error_reply message
     = ("Sorry, I encountered an error. " ++
        (if Api.includes message "Failed to fetch"
         then "Please make sure the server is running at http://localhost:3000"
         else if Api.includes message "configuration error"
         then "Server configuration error. Check GROQ_API_KEY in .env file."
         else if Api.includes message "decommissioned"
         then "The AI model is outdated. Please update to a newer model."
         else message))%string.
Proof.
  intros Hin Hfetch Hstatus Hjson Hmessage Hne.
  assert (Hok : (200 <=? Server.status response)%Z && (Server.status response <=? 299)%Z
                = false).
  { apply andb_false_iff. destruct Hstatus; [left | right]; apply Z.leb_gt; assumption. }
  apply String.eqb_neq in Hne.
  split; [| split; [| reflexivity]].
  - destruct (chat_answer env fetch body req Hin) as (props & items & _ & _ & _ & ->).
    rewrite Hfetch. cbn [fst]. unfold Server.response_ok. rewrite Hok. cbn [negb].
    unfold Server.upstream_error. rewrite Hjson. cbn [bind].
    destruct errorData as [| | b | n | str | elements | props'];
      try (cbn in Hmessage; discriminate).
    unfold Spec.field in Hmessage at 2. cbn [Get] in Hmessage. cbn [Get bind].
    rewrite OptGet_field, Hmessage. cbn [bind try_catch].
    unfold Server.error_body, js_or. cbn [ToBoolean]. now rewrite Hne.
  - unfold Api.sendMessage_error. rewrite Hok. cbn [negb Get lookup String.eqb Ascii.eqb
      Bool.eqb bind try_catch].
    unfold js_or. cbn [ToBoolean]. now rewrite Hne.
Qed.

(** X17. The health check at start-up succeeds exactly when the server has a
    credential: a server that is reached but has no [GROQ_API_KEY] answers
    503, which the client takes for a failed check, and the toast then says
    that the server cannot be reached. *)
Theorem health_check_needs_credential (env : Server.Env) (now : string) :
  exists code payload,
    Server.health env now = Server.Json code payload
    /\ (Api.checkHealth (Some (code, Normal payload)) = true
        <-> Spec.credential_configured env)
    /\ (~ Spec.credential_configured env ->
        code = 503%Z
        /\ Api.health_toast (Api.checkHealth (Some (code, Normal payload)))
           = Some "Cannot connect to server. Please make sure server is running.").
Proof.
  pose proof (validateApiKey_configured env) as Hkey.
  unfold Server.health. cbv zeta.
  destruct (Server.validateApiKey (Server.CONFIG env)); eexists; eexists;
    (split; [reflexivity |]); cbn; split.
  - split; [intros _; now apply Hkey | reflexivity].
  - intros Hno. exfalso. apply Hno, Hkey. reflexivity.
  - split; [discriminate |]. intros Hyes. now apply Hkey in Hyes.
  - intros _. split; reflexivity.
Qed.

End ClientRequests.

(* ================================================================== *)
(** * Utils and Storage *)
(* ================================================================== *)

Section UtilsFacts.

(** X23. [getTimeAgo] by the age in milliseconds: under a minute, a timestamp in
    the future included, it is [Just now]; then whole minutes from 1 to 59,
    whole hours from 1 to 23, whole days from 1 to 6, each rounded down; from
    seven days on, the date.  A count of [0] or one that belongs to the next
    unit is never shown. *)
Theorem getTimeAgo_units (toLocaleDateString : Z -> string) (now timestamp : Z) :
  let diff := (now - timestamp)%Z in
  let shown := Utils.getTimeAgo toLocaleDateString now timestamp in
  ((diff < 60000)%Z /\ shown = "Just now")
  \/ ((60000 <= diff < 3600000)%Z /\ (1 <= diff / 60000 < 60)%Z
      /\ shown = (Utils.show (diff / 60000) ++ "m ago")%string)
  \/ ((3600000 <= diff < 86400000)%Z /\ (1 <= diff / 3600000 < 24)%Z
      /\ shown = (Utils.show (diff / 3600000) ++ "h ago")%string)
  \/ ((86400000 <= diff < 604800000)%Z /\ (1 <= diff / 86400000 < 7)%Z
      /\ shown = (Utils.show (diff / 86400000) ++ "d ago")%string)
  \/ ((604800000 <= diff)%Z /\ shown = toLocaleDateString timestamp).
Proof.
  intros diff shown. unfold shown, Utils.getTimeAgo. cbv zeta. fold diff.
  destruct (Z.ltb_spec (diff / 60000) 1) as [Hm | Hm].
  { left. split; [| reflexivity]. Z.to_euclidean_division_equations. lia. }
  right. destruct (Z.ltb_spec (diff / 60000) 60) as [Hm' | Hm'].
  { left. repeat split; try lia; Z.to_euclidean_division_equations; lia. }
  right. destruct (Z.ltb_spec (diff / 3600000) 24) as [Hh | Hh].
  { left. repeat split; try lia; Z.to_euclidean_division_equations; lia. }
  right. destruct (Z.ltb_spec (diff / 86400000) 7) as [Hd | Hd].
  { left. repeat split; try lia; Z.to_euclidean_division_equations; lia. }
  right. split; [| reflexivity]. Z.to_euclidean_division_equations. lia.
Qed.

End UtilsFacts.

Section StorageFacts.
Import JS.
Import LocalStorage.
Context {rt : Runtime}.
Variable fits : Items -> bool.
Variable JSON_stringify : JSValue -> option string.

Lemma getItem_removeItem (key other : string) (items : Items) :
  getItem other (removeItem key items)
  = if key =? other then None else getItem other items.
Proof.
  induction items as [| [k v] items IH]; cbn [removeItem getItem].
  - now destruct (key =? other).
  - destruct (String.eqb_spec k key) as [-> | Hk].
    + rewrite IH. now destruct (key =? other).
    + cbn [getItem]. rewrite IH.
      destruct (String.eqb_spec key other) as [<- | Hother]; [| reflexivity].
      apply String.eqb_neq in Hk. now rewrite Hk.
Qed.

(** X24. [Storage] as a key-value store.  A [set] that fails (the quota) returns
    [false] and leaves every item as it was; after one that succeeds, [get]
    of the key gives what [JSON.parse] reads from the stored text; [set] and
    [remove] leave the other keys alone; and after [remove], [get] gives the
    default. *)
Theorem storage_set_get_remove (key other : string) (value dflt : JSValue) (items : Items) :
  let result := set fits JSON_stringify key value items in
  (fst result = false -> snd result = items)
  /\ (fst result = true ->
      forall text v,
        JSON_stringify value = Some text -> text <> "" -> JSON_parse text = Some v ->
        get key dflt (snd result) = v)
  /\ (other <> key -> get other dflt (snd result) = get other dflt items)
  /\ get key dflt (snd (remove key items)) = dflt
  /\ (other <> key -> get other dflt (snd (remove key items)) = get other dflt items).
Proof.
  intros result. unfold result, set, setItem, remove, get. cbn [snd].
  set (text := match JSON_stringify value with Some t => t | None => "undefined" end).
  destruct (fits ((key, text) :: removeItem key items)); cbn [fst snd];
    repeat split; try discriminate; try reflexivity.
  - intros _ text' v Htext Hne Hparse. cbn [getItem]. rewrite String.eqb_refl.
    unfold text. rewrite Htext. apply String.eqb_neq in Hne. now rewrite Hne, Hparse.
  - intros Hother. cbn [getItem].
    assert (H : (key =? other) = false) by (apply String.eqb_neq; congruence).
    now rewrite H, getItem_removeItem, H.
  - now rewrite getItem_removeItem, String.eqb_refl.
  - intros Hother.
    assert (H : (key =? other) = false) by (apply String.eqb_neq; congruence).
    now rewrite getItem_removeItem, H.
  - now rewrite getItem_removeItem, String.eqb_refl.
  - intros Hother.
    assert (H : (key =? other) = false) by (apply String.eqb_neq; congruence).
    now rewrite getItem_removeItem, H.
Qed.

End StorageFacts.

(* ================================================================== *)
(** * The reader of chatbot.js against the buffered reader *)
(* ================================================================== *)

Section ReaderFacts.
Import JS.
Context {rt : Runtime}.

Lemma split_lines_aligned (chunk : string) :
  Spec.line_aligned chunk -> exists lines, split_lines chunk = lines ++ [""].
Proof.
  intros [-> | [text ->]].
  - exists []. reflexivity.
  - exists (split_lines text). unfold nl, str_of_char. now rewrite split_lines_break.
Qed.

(** X5. As long as every chunk read ends where a line ends, the reader of
    chatbot.js, which keeps no buffer, appends the deltas that the buffered
    reader of the API reference yields. *)
Theorem unbuffered_reader_right_on_whole_lines (chunks : list string) :
  Forall Spec.line_aligned chunks ->
  Client.streamResponse_deltas chunks = DocumentedReader.streamMessage_deltas chunks.
Proof.
  unfold DocumentedReader.streamMessage_deltas.
  induction 1 as [| chunk rest Hchunk Hrest IH]; [reflexivity |].
  destruct (split_lines_aligned chunk Hchunk) as [lines Hlines].
  rewrite feed_all_step. unfold DocumentedReader.feed, DocumentedReader.pop.
  cbn [append fst snd Client.streamResponse_deltas]. unfold Client.chunk_lines.
  rewrite Hlines, removelast_last, last_last, !decode_lines_app, IH.
  cbn [Client.decode_lines]. rewrite (decode_line_unmarked "" eq_refl).
  now rewrite app_nil_r.
Qed.

End ReaderFacts.

(* ================================================================== *)
(** * The theorems at concrete inputs *)
(* ================================================================== *)

Section MoreRuns.
Import JS.

(** The events written for an upstream that delivers one frame and ends. *)
Lemma relay_writes_whole_events_witness :
  Forall Framing.is_event
    [Server.frame (Examples.dq "data: {'choices':[{'delta':{'content':'Hi'}}]}");
     Server.frame "data: [DONE]"].
Proof.
  destruct (relay_writes_whole_events (rt := Reference.runtime) Examples.env_with_key
              (Examples.always (Examples.upstream_stream [Examples.hi_frame] false))
              (JObj [("messages", JArr [Examples.user_message]); ("stream", JBool true)])
              Server.SSE_HEADERS
              [Server.frame (Examples.dq "data: {'choices':[{'delta':{'content':'Hi'}}]}");
               Server.frame "data: [DONE]"]
              true) as (_ & Hevents & _).
  - vm_compute. reflexivity.
  - exact Hevents.
Defined.

(** The one upstream call of a one-message request. *)
Lemma upstream_call_is_server_controlled_witness :
  Server.url (Spec.request_for Examples.env_with_key
                [("messages", JArr [Examples.user_message])] [Examples.user_message])
  = "https://api.groq.com/openai/v1/chat/completions".
Proof.
  destruct (upstream_call_is_server_controlled (rt := Reference.runtime)
              Examples.env_with_key
              (Examples.always (Examples.upstream_stream [] false))
              (JObj [("messages", JArr [Examples.user_message])])) as [_ Hcall].
  destruct (Hcall (Spec.request_for Examples.env_with_key
                     [("messages", JArr [Examples.user_message])] [Examples.user_message]))
    as [Hurl _].
  - vm_compute. left. reflexivity.
  - exact Hurl.
Defined.

(** An upstream that cannot be reached. *)
Lemma upstream_failure_answers_500_witness :
  fst (Server.chat (rt := Reference.runtime) Examples.env_with_key
         (fun _ => Server.Rejected) (JObj [("messages", JArr [Examples.user_message])]))
  = Server.Json 500 (JObj [("error", JStr "An unexpected error occurred. Please try again.")]).
Proof.
  rewrite (upstream_failure_answers_500 (rt := Reference.runtime) Examples.env_with_key
             (fun _ => Server.Rejected) (JObj [("messages", JArr [Examples.user_message])])
             (Spec.request_for Examples.env_with_key
                [("messages", JArr [Examples.user_message])] [Examples.user_message])).
  - reflexivity.
  - vm_compute. left. reflexivity.
  - left. reflexivity.
Defined.

(** A completion with one choice. *)
Lemma non_streaming_answer_witness :
  fst (Server.chat (rt := Reference.runtime) Examples.env_with_key
         (Examples.always
            (Examples.upstream_error 200
               (Normal (JObj [("choices",
                               JArr [JObj [("message", JObj [("content", JStr "Hello!")])]]);
                              ("model", JStr "m")]))))
         (JObj [("messages", JArr [Examples.user_message])]))
  = Server.Json 200
      (JObj [("message", JStr "Hello!"); ("model", JStr "m"); ("usage", JUndefined)]).
Proof.
  destruct (non_streaming_answer (rt := Reference.runtime) Examples.env_with_key
              (Examples.always
                 (Examples.upstream_error 200
                    (Normal (JObj [("choices",
                                    JArr [JObj [("message",
                                                 JObj [("content", JStr "Hello!")])]]);
                                   ("model", JStr "m")]))))
              (JObj [("messages", JArr [Examples.user_message])])
              (Spec.request_for Examples.env_with_key
                 [("messages", JArr [Examples.user_message])] [Examples.user_message])
              (Examples.upstream_error 200
                 (Normal (JObj [("choices",
                                 JArr [JObj [("message", JObj [("content", JStr "Hello!")])]]);
                                ("model", JStr "m")])))
              (JObj [("choices",
                      JArr [JObj [("message", JObj [("content", JStr "Hello!")])]]);
                     ("model", JStr "m")])) as [Hsome _].
  - vm_compute. left. reflexivity.
  - reflexivity.
  - reflexivity.
  - simpl. lia.
  - reflexivity.
  - reflexivity.
  - rewrite (Hsome eq_refl). vm_compute. reflexivity.
Defined.

(** The models route without a credential. *)
Lemma models_answer_witness :
  Routes.models Examples.env_without_key (Examples.always (Examples.upstream_stream [] false))
  = (Server.Json 500 (JObj [("error", JStr "API key not configured")]), []).
Proof.
  destruct (models_answer Examples.env_without_key
              (Examples.always (Examples.upstream_stream [] false))) as [Hno _].
  apply Hno. intros (key & Hkey & _). discriminate.
Defined.

(** One frame through the relay and the reader. *)
Lemma relay_is_transparent_to_reader_witness :
  Client.streamResponse_deltas (rt := Reference.runtime)
    [Server.frame (Examples.dq "data: {'choices':[{'delta':{'content':'Hi'}}]}");
     Server.frame "data: [DONE]"]
  = Client.streamResponse_deltas (rt := Reference.runtime) [Examples.hi_frame].
Proof.
  apply (relay_is_transparent_to_reader (rt := Reference.runtime) Examples.env_with_key
           (Examples.always (Examples.upstream_stream [Examples.hi_frame] false))
           (JObj [("messages", JArr [Examples.user_message]); ("stream", JBool true)])
           (Spec.request_for Examples.env_with_key
              [("messages", JArr [Examples.user_message]); ("stream", JBool true)]
              [Examples.user_message])
           (Examples.upstream_stream [Examples.hi_frame] false)
           Server.SSE_HEADERS
           [Server.frame (Examples.dq "data: {'choices':[{'delta':{'content':'Hi'}}]}");
            Server.frame "data: [DONE]"]
           true).
  - vm_compute. left. reflexivity.
  - reflexivity.
  - vm_compute. reflexivity.
Defined.

(** The same answer delivered cut inside the payload. *)
Lemma relay_is_transparent_to_buffered_reader_witness :
  DocumentedReader.streamMessage_deltas (rt := Reference.runtime)
    [Examples.hi_chunk1; Examples.hi_chunk2; Server.frame "data: [DONE]"]
  = Client.streamResponse_deltas (rt := Reference.runtime) [Examples.hi_frame].
Proof.
  apply (relay_is_transparent_to_buffered_reader (rt := Reference.runtime)
           Examples.env_with_key
           (Examples.always (Examples.upstream_stream [Examples.hi_frame] false))
           (JObj [("messages", JArr [Examples.user_message]); ("stream", JBool true)])
           (Spec.request_for Examples.env_with_key
              [("messages", JArr [Examples.user_message]); ("stream", JBool true)]
              [Examples.user_message])
           (Examples.upstream_stream [Examples.hi_frame] false)
           Server.SSE_HEADERS
           [Server.frame (Examples.dq "data: {'choices':[{'delta':{'content':'Hi'}}]}");
            Server.frame "data: [DONE]"]
           true).
  - vm_compute. left. reflexivity.
  - reflexivity.
  - vm_compute. reflexivity.
  - vm_compute. reflexivity.
Defined.

(** The buffered reader on a frame in one chunk and cut in two. *)
Lemma documented_reader_chunk_independent_witness :
  DocumentedReader.streamMessage_deltas (rt := Reference.runtime) [Examples.hi_frame]
  = DocumentedReader.streamMessage_deltas (rt := Reference.runtime)
      [Examples.hi_chunk1; Examples.hi_chunk2].
Proof.
  apply (documented_reader_chunk_independent (rt := Reference.runtime)).
  vm_compute. reflexivity.
Defined.

(** The frame cut in two yields no delta; the request after it is refused. *)
Lemma empty_reply_blocks_the_conversation_witness :
  Server.chat (rt := Reference.runtime) Examples.env_with_key
    (Examples.always (Examples.upstream_stream [] false))
    (Api.request_body
       (History.messages_json
          (History.streamed_turn (rt := Reference.runtime) "Hello"
             [Examples.hi_chunk1; Examples.hi_chunk2] []
           ++ [{| History.role := "user"; History.content := "Are you there?" |}]))
       [])
  = (Server.Json 400 (JObj [("error", JStr "Each message must have role and content")]), []).
Proof.
  destruct (empty_reply_blocks_the_conversation (rt := Reference.runtime)
              Examples.env_with_key
              (Examples.always (Examples.upstream_stream [] false))
              [] [{| History.role := "user"; History.content := "Are you there?" |}]
              "Hello" [Examples.hi_chunk1; Examples.hi_chunk2] []
              "Bad Request") as [Hchat _].
  - exists "gsk_test". split; [reflexivity | discriminate].
  - vm_compute. reflexivity.
  - exact Hchat.
Defined.

(** What the chat shows when the server has no credential. *)
Lemma refusals_as_shown_witness :
  exists payload,
    fst (Server.chat (rt := Reference.runtime) Examples.env_without_key
           (Examples.always (Examples.upstream_stream [] false)) (JObj []))
    = Server.Json 500 payload
    /\ option_map Api.error_reply
         (Api.sendMessage_error (rt := Reference.runtime) 500 "Internal Server Error"
            (Normal payload))
       = Some ("Sorry, I encountered an error. "
               ++ "Server configuration error. Check GROQ_API_KEY in .env file.")%string.
Proof.
  destruct (refusals_as_shown (rt := Reference.runtime) Examples.env_without_key
              (Examples.always (Examples.upstream_stream [] false)) (JObj [])
              "Internal Server Error") as [Hno _].
  apply Hno. intros (key & Hkey & _). discriminate.
Defined.

(** A conversation of one message under the default settings passes. *)
Lemma client_request_validation_witness :
  Server.validateChatRequest (rt := Reference.runtime)
    (Api.request_body (History.messages_json [Samples.hello]) [])
  = Normal Server.ok.
Proof.
  rewrite (client_request_validation (rt := Reference.runtime) [Samples.hello] []).
  - vm_compute. reflexivity.
  - reflexivity.
Defined.

(** A decommissioned model, as the upstream reports it. *)
Lemma upstream_error_as_shown_witness :
  Api.sendMessage_error (rt := Reference.runtime) 400 "Bad Request"
    (Normal (JObj [("error", JStr "The model has been decommissioned")]))
  = Some "The model has been decommissioned".
Proof.
  destruct (upstream_error_as_shown (rt := Reference.runtime) Examples.env_with_key
              (Examples.always
                 (Examples.upstream_error 400
                    (Normal (JObj [("error",
                                    JObj [("message",
                                           JStr "The model has been decommissioned")])]))))
              (JObj [("messages", JArr [Examples.user_message])])
              (Spec.request_for Examples.env_with_key
                 [("messages", JArr [Examples.user_message])] [Examples.user_message])
              (Examples.upstream_error 400
                 (Normal (JObj [("error",
                                 JObj [("message",
                                        JStr "The model has been decommissioned")])])))
              (JObj [("error",
                      JObj [("message", JStr "The model has been decommissioned")])])
              "The model has been decommissioned" "Bad Request") as (_ & Hclient & _).
  - vm_compute. left. reflexivity.
  - reflexivity.
  - right. simpl. lia.
  - reflexivity.
  - reflexivity.
  - discriminate.
  - exact Hclient.
Defined.

(** A new chat, the earlier one deleted, the first one opened again, a save. *)
Lemma history_stays_consistent_witness :
  History.consistent
    (fold_left (History.perform (tx := Samples.ascii_text))
       [History.NewChat "c" 2; History.DeleteChat true "a" "d" 3;
        History.LoadChat "b" 4; History.SaveChat 5]
       Samples.open_chat).
Proof.
  apply (history_stays_consistent (tx := Samples.ascii_text)). repeat split.
  - simpl. unfold History.MAX_CHAT_HISTORY. lia.
  - simpl. constructor; [intros [] | constructor].
  - intros l H. discriminate.
Defined.

(** The open conversation [b] left and opened again. *)
Lemma left_conversation_reopens_witness :
  History.currentMessages
    (History.loadChat (tx := Samples.ascii_text) "b" 3
       (History.newChat (tx := Samples.ascii_text) "c" 2 Samples.open_chat))
  = [Samples.hello].
Proof.
  destruct (left_conversation_reopens (tx := Samples.ascii_text) "c" "b" 2 3 Samples.open_chat)
    as (_ & _ & _ & _ & Hmessages & _).
  - reflexivity.
  - discriminate.
  - discriminate.
  - simpl. unfold History.MAX_CHAT_HISTORY. lia.
  - exact Hmessages.
Defined.

Lemma saveChat_idempotent_witness :
  History.saveChat (tx := Samples.ascii_text) 3
    (History.saveChat (tx := Samples.ascii_text) 2 Samples.open_chat)
  = History.saveChat (tx := Samples.ascii_text) 3 Samples.open_chat.
Proof.
  apply (saveChat_idempotent (tx := Samples.ascii_text)).
  simpl. unfold History.MAX_CHAT_HISTORY. lia.
Defined.

(** The earlier conversation [a] deleted while [b] is open. *)
Lemma deleteChat_removes_other_chat_witness :
  History.chats (History.deleteChat (tx := Samples.ascii_text) true "a" "c" 2 Samples.open_chat)
  = [].
Proof.
  destruct (deleteChat_removes_other_chat (tx := Samples.ascii_text) "a" "c" 2 Samples.open_chat)
    as (_ & Hchats & _).
  - discriminate.
  - rewrite Hchats. reflexivity.
Defined.

(** The open conversation [b] deleted, and everything cleared: [b] stays. *)
Lemma deleted_open_chat_is_saved_again_witness :
  History.chats (History.clearAll (tx := Samples.ascii_text) true "c" 2 Samples.open_chat)
  = [History.chatData (tx := Samples.ascii_text) 2 Samples.open_chat "b"].
Proof.
  destruct (deleted_open_chat_is_saved_again (tx := Samples.ascii_text) "b" "c" 2 Samples.open_chat)
    as (_ & Hcleared & _).
  - reflexivity.
  - discriminate.
  - discriminate.
  - exact Hcleared.
Defined.

(** An empty list of chats stored and read back. *)
Lemma storage_set_get_remove_witness :
  LocalStorage.get (rt := Reference.runtime) "chats" JNull
    (snd (LocalStorage.set (fun _ => true) Samples.stringify "chats" (JArr []) []))
  = JArr [].
Proof.
  destruct (storage_set_get_remove (rt := Reference.runtime) (fun _ => true)
              Samples.stringify "chats" "settings" (JArr []) JNull [])
    as (_ & Hget & _).
  apply (Hget eq_refl "[]").
  - reflexivity.
  - discriminate.
  - vm_compute. reflexivity.
Defined.

(** One frame read whole. *)
Lemma unbuffered_reader_right_on_whole_lines_witness :
  Client.streamResponse_deltas (rt := Reference.runtime) [Examples.hi_frame]
  = DocumentedReader.streamMessage_deltas (rt := Reference.runtime) [Examples.hi_frame].
Proof.
  apply (unbuffered_reader_right_on_whole_lines (rt := Reference.runtime)).
  constructor; [| constructor].
  right. exists (Examples.dq "data: {'choices':[{'delta':{'content':'Hi'}}]}" ++ nl)%string.
  vm_compute. reflexivity.
Defined.

(** The health check against a server without credential. *)
Lemma health_check_needs_credential_witness :
  exists code payload,
    Server.health Examples.env_without_key "2026-01-10T12:00:00.000Z"
    = Server.Json code payload
    /\ Api.checkHealth (Some (code, Normal payload)) = false.
Proof.
  destruct (health_check_needs_credential Examples.env_without_key
              "2026-01-10T12:00:00.000Z") as (code & payload & Hhealth & Hcheck & _).
  exists code, payload. split; [exact Hhealth |].
  destruct (Api.checkHealth (Some (code, Normal payload))); [| reflexivity].
  destruct Hcheck as [Hyes _]. destruct (Hyes eq_refl) as (key & Hkey & _). discriminate.
Defined.

End MoreRuns.
